(** * QdrantLoinc: the ingestion script [process_loinc.py]

    A shallow embedding of [process_loinc.py]: the part lookup table, the
    per-row resolution and point construction, the batched upsert loop and
    the process exit status, together with the properties of the
    ingestion-and-indexing pipeline that hold (or fail) on that code.

    The two remote services the script talks to are modelled at their
    interface: the embedding service by the answer its client hands back
    for each call, an object with the fields "model" and "embeddings", the
    vector store as a finite map of collections with delete-and-create and
    insert-or-replace semantics.

    The development also embeds the document generator
    [generate_loinc_docs.py] and the CSV index of the class [LoincTools]
    ([CollectCSVs], [GetCsvRowsAsJson]) of [loinc_tools.py]. *)

From stdpp Require Import gmap strings list fin_maps pretty.
From Stdlib Require Import Lia.

(** ** Configuration (lines 5-12) *)

Definition OLLAMA_MODEL : string := "oscardp96/medcpt-article".
Definition COLLECTION_NAME : string := "loinc".

(** ** Exceptions and results *)

Inductive exn : Type :=
| KeyError (key : string)
| ResponseError (msg : string)
| UnexpectedResponse (msg : string).

Definition exn_str (e : exn) : string :=
  match e with
  | KeyError k => "'" +:+ k +:+ "'"
  | ResponseError m => m
  | UnexpectedResponse m => m
  end.

Inductive result (A : Type) : Type :=
| Ok (a : A)
| Raise (e : exn).
Arguments Ok {A} a.
Arguments Raise {A} e.

(** One row of a [csv.DictReader], column name to field value, for a line
    with as many fields as the header: the reader gives every row of a
    table the keys of its header. *)
Abbreviation Row := (gmap string string).

(** [d.get(k, default)] of a Python dict. *)
Definition dict_get (d : gmap string string) (k dflt : string) : string :=
  match d !! k with
  | Some v => v
  | None => dflt
  end.

Inductive Distance : Type := COSINE | EUCLID | DOT | MANHATTAN.

Record VectorParams : Type := mkVectorParams {
  size : nat;
  distance : Distance
}.

Section Pipeline.

(** The type of the numbers of an embedding vector; the script never
    computes with them. *)
Context {float : Type}.

(** The values the script handles besides the strings of the tables: the
    name of a model, a list of numbers, a list of such lists. *)
Inductive value : Type :=
| Str (s : string)
| Floats (v : list float)
| Vectors (vs : list (list float)).

(** The answer of [ollama_client.embed]: the name of the model and, under
    "embeddings", one vector for each input of the request.  The further
    fields of the answer are durations and counts, which the script never
    asks for; none of them is named "embedding". *)
Record EmbedResponse : Type := mkEmbedResponse {
  model : string;
  embeddings : list (list float)
}.

(** [response[key]]: the field of that name, [KeyError] for a name that is
    not among the fields of the answer. *)
Definition response_getitem (response : EmbedResponse) (key : string)
  : result value :=
  if String.eqb key "model" then Ok (Str (model response))
  else if String.eqb key "embeddings" then Ok (Vectors (embeddings response))
  else Raise (KeyError key).

Record PointStruct : Type := mkPoint {
  id : nat;
  vector : value;
  payload : gmap string string
}.

Record Collection : Type := mkCollection {
  config : VectorParams;
  points : gmap nat PointStruct
}.

(** Requests the script sends to the vector store. *)
Inductive Request : Type :=
| Recreate (collection_name : string) (vectors_config : VectorParams)
| Upsert (collection_name : string) (wait : bool) (pts : list PointStruct).

(** *** The vector store at its interface *)

Definition upsert_points (m : gmap nat PointStruct) (pts : list PointStruct)
  : gmap nat PointStruct :=
  foldl (fun acc p => <[id p := p]> acc) m pts.

(** What a collection of configuration [cfg] keeps of a point: nothing
    when the vector is not a list of [size cfg] numbers; under cosine
    distance the vector is kept scaled to unit length, which [normalize]
    computes. *)
Definition stored_point (normalize : list float -> list float)
    (cfg : VectorParams) (p : PointStruct) : option PointStruct :=
  match vector p with
  | Floats v =>
      if Nat.eqb (length v) (size cfg)
      then Some (mkPoint (id p)
                   (Floats (match distance cfg with
                            | COSINE => normalize v
                            | _ => v
                            end))
                   (payload p))
      else None
  | _ => None
  end.

(** [recreate_collection] deletes the collection when it exists and creates
    it empty; [upsert] inserts or replaces by point identifier, and is
    refused as a whole for an unknown collection or when the collection
    cannot keep one of the points. *)
Definition apply_request (normalize : list float -> list float)
    (req : Request) (cs : gmap string Collection)
  : result (gmap string Collection) :=
  match req with
  | Recreate name cfg =>
      Ok (<[name := mkCollection cfg ∅]> (delete name cs))
  | Upsert name _ pts =>
      match cs !! name with
      | None => Raise (UnexpectedResponse "Not found: collection does not exist")
      | Some c =>
          match mapM (stored_point normalize (config c)) pts with
          | Some kept =>
              Ok (<[name := mkCollection (config c)
                                         (upsert_points (points c) kept)]> cs)
          | None => Raise (UnexpectedResponse "Wrong input: Vector dimension error")
          end
      end
  end.

(** *** Environment of one run and world state *)

Record Env : Type := mkEnv {
  part_csv : list Row;     (* rows read from PART_CSV_PATH *)
  loinc_csv : list Row;    (* rows read from LOINC_CSV_PATH *)
  (* outcome of the k-th call [ollama_client.embed(model, input)] *)
  ollama_embed : nat -> string -> string -> result EmbedResponse;
  (* whether the vector store answers its k-th request at all *)
  qdrant_up : nat -> bool;
  (* the vector of unit length the store keeps under cosine distance *)
  qdrant_normalize : list float -> list float
}.

Record World : Type := mkWorld {
  collections : gmap string Collection;
  qdrant_calls : nat;                (* requests sent to the store *)
  acked : list Request;              (* requests the store acknowledged *)
  embed_requests : list string;      (* inputs sent to the embedding service *)
  stdout : list string
}.

Definition boot (cs : gmap string Collection) : World :=
  mkWorld cs 0 [] [] [].

(** *** The monad of the script: state and exceptions *)

Definition M (A : Type) : Type := World -> result A * World.

Definition ret {A} (a : A) : M A := fun w => (Ok a, w).

Definition raise {A} (e : exn) : M A := fun w => (Raise e, w).

(** A computation without effect on the world. *)
Definition lift {A} (r : result A) : M A := fun w => (r, w).

Definition bind {A B} (m : M A) (k : A -> M B) : M B :=
  fun w =>
    match m w with
    | (Ok a, w') => k a w'
    | (Raise e, w') => (Raise e, w')
    end.

Definition try_except {A} (m : M A) (handler : exn -> M A) : M A :=
  fun w =>
    match m w with
    | (Ok a, w') => (Ok a, w')
    | (Raise e, w') => handler e w'
    end.

Notation "x <- c1 ;; c2" := (bind c1 (fun x => c2))
  (at level 100, c1 at next level, right associativity).
Notation "c1 ;;; c2" := (bind c1 (fun _ => c2))
  (at level 100, right associativity).

Definition print (s : string) : M unit :=
  fun w => (Ok tt, mkWorld (collections w) (qdrant_calls w) (acked w)
                           (embed_requests w) (stdout w ++ [s])).

(** [row[key]] *)
Definition getitem (row : Row) (key : string) : M string :=
  match row !! key with
  | Some v => ret v
  | None => raise (KeyError key)
  end.

(** A call of the store client. *)
Definition qdrant_request (env : Env) (req : Request) : M unit :=
  fun w =>
    let k := qdrant_calls w in
    if qdrant_up env k then
      match apply_request (qdrant_normalize env) req (collections w) with
      | Ok cs => (Ok tt, mkWorld cs (S k) (acked w ++ [req])
                                 (embed_requests w) (stdout w))
      | Raise e => (Raise e, mkWorld (collections w) (S k) (acked w)
                                     (embed_requests w) (stdout w))
      end
    else (Raise (UnexpectedResponse "Connection refused"),
          mkWorld (collections w) (S k) (acked w)
                  (embed_requests w) (stdout w)).

(** A call [ollama_client.embed(model=..., input=...)]. *)
Definition ollama_client_embed (env : Env) (model_name input : string)
  : M EmbedResponse :=
  fun w =>
    let k := length (embed_requests w) in
    (ollama_embed env k model_name input,
     mkWorld (collections w) (qdrant_calls w) (acked w)
             (embed_requests w ++ [input]) (stdout w)).

(** ** [get_embedding] (lines 18-23) *)

Definition get_embedding (env : Env) (text : string) : M value :=
  response <- ollama_client_embed env OLLAMA_MODEL text;;
  lift (response_getitem response "embedding").

(** ** [create_part_lookup] (lines 25-31)

    In [part_lookup[row['PartNumber']] = row['PartName']] the right-hand
    side is evaluated before the subscript of the target. *)

Fixpoint create_part_lookup_rows (rows : list Row)
    (part_lookup : gmap string string) : M (gmap string string) :=
  match rows with
  | [] => ret part_lookup
  | row :: rest =>
      name <- getitem row "PartName";;
      number <- getitem row "PartNumber";;
      create_part_lookup_rows rest (<[number := name]> part_lookup)
  end.

Definition create_part_lookup (env : Env) : M (gmap string string) :=
  create_part_lookup_rows (part_csv env) ∅.

(** ** [main] (lines 33-104) *)

(** [part_lookup.get(row[field], row[field])] *)
Definition resolve (part_lookup : gmap string string) (row : Row)
    (field : string) : M string :=
  code <- getitem row field;;
  dflt <- getitem row field;;
  ret (dict_get part_lookup code dflt).

(** The f-string of line 63. *)
Definition format_text (long_common_name component prop time_aspct system
    scale_typ method_typ class : string) : string :=
  "This LOINC term is for '" +:+ long_common_name +:+
  "'. Component: " +:+ component +:+
  ". Property: " +:+ prop +:+
  ". Time Aspect: " +:+ time_aspct +:+
  ". System: " +:+ system +:+
  ". Scale: " +:+ scale_typ +:+
  ". Method: " +:+ method_typ +:+
  ". Class: " +:+ class +:+ ".".

(** The dict literal of lines 69-78. *)
Definition make_payload (long_common_name loinc_num component prop time_aspct
    system scale_typ method_typ : string) : gmap string string :=
  <["Method" := method_typ]>
  (<["Scale" := scale_typ]>
  (<["System" := system]>
  (<["Time" := time_aspct]>
  (<["Property" := prop]>
  (<["Component" := component]>
  (<["LOINC code" := loinc_num]>
  (<["Fully-Specified Name" := long_common_name]> ∅))))))).

(** Lines 55-85: one row, at position [i] of the enumeration, to one point. *)
Definition main_row (env : Env) (part_lookup : gmap string string)
    (i : nat) (row : Row) : M PointStruct :=
  component <- getitem row "COMPONENT";;
  prop <- resolve part_lookup row "PROPERTY";;
  time_aspct <- resolve part_lookup row "TIME_ASPCT";;
  system <- resolve part_lookup row "SYSTEM";;
  scale_typ <- resolve part_lookup row "SCALE_TYP";;
  method_typ <- resolve part_lookup row "METHOD_TYP";;
  name <- getitem row "LONG_COMMON_NAME";;
  class <- getitem row "CLASS";;
  let text_to_embed :=
    format_text name component prop time_aspct system scale_typ method_typ class in
  embedding <- get_embedding env text_to_embed;;
  name' <- getitem row "LONG_COMMON_NAME";;
  loinc_num <- getitem row "LOINC_NUM";;
  let payload :=
    make_payload name' loinc_num component prop time_aspct system scale_typ
                 method_typ in
  ret (mkPoint (i + 1) embedding payload).

Definition upsert_request (pts : list PointStruct) : Request :=
  Upsert COLLECTION_NAME true pts.

(** Lines 53-95: the loop over the enumerated rows, with the open batch. *)
Fixpoint main_loop (env : Env) (part_lookup : gmap string string)
    (rows : list Row) (i : nat) (pts : list PointStruct)
  : M (list PointStruct) :=
  match rows with
  | [] => ret pts
  | row :: rest =>
      p <- main_row env part_lookup i row;;
      let pts := pts ++ [p] in
      pts <- (if Nat.eqb (length pts) 100
              then qdrant_request env (upsert_request pts);;;
                   print "Upserted 100 points...";;;
                   ret []
              else ret pts);;
      main_loop env part_lookup rest (S i) pts
  end.

(** Lines 97-104: the remaining points. *)
Definition main_flush (env : Env) (pts : list PointStruct) : M unit :=
  match pts with
  | [] => ret tt
  | _ :: _ =>
      qdrant_request env (upsert_request pts);;;
      print ("Upserted remaining " +:+ pretty (length pts) +:+ " points.")
  end.

(** Lines 38-47: the collection is created anew; the result tells whether
    [main] goes on ([true]) or returns from the handler ([false]). *)
Definition main_create (env : Env) : M bool :=
  try_except
    (qdrant_request env (Recreate COLLECTION_NAME (mkVectorParams 768 COSINE));;;
     print ("Collection '" +:+ COLLECTION_NAME +:+ "' created.");;;
     ret true)
    (fun e =>
       print ("Could not create collection: " +:+ exn_str e);;;
       ret false).

Definition main (env : Env) : M unit :=
  part_lookup <- create_part_lookup env;;
  created <- main_create env;;
  if created : bool then
    pts <- main_loop env part_lookup (loinc_csv env) 0 [];;
    main_flush env pts
  else ret tt.

(** ** The process (lines 106-107): exit status of the interpreter *)

Definition exit_code {A} (r : result A) : nat :=
  match r with
  | Ok _ => 0
  | Raise _ => 1
  end.

Definition run (env : Env) (cs : gmap string Collection) : result unit * World :=
  main env (boot cs).

End Pipeline.

(** * Specification-level vocabulary *)

(** Columns [main] reads from a row of the primary table. *)
Definition LOINC_COLUMNS : list string :=
  ["COMPONENT"; "PROPERTY"; "TIME_ASPCT"; "SYSTEM"; "SCALE_TYP"; "METHOD_TYP";
   "LONG_COMMON_NAME"; "CLASS"; "LOINC_NUM"].

(** Columns [create_part_lookup] reads from a row of the part table. *)
Definition PART_COLUMNS : list string := ["PartName"; "PartNumber"].

Definition has_columns (cols : list string) (row : Row) : Prop :=
  Forall (fun k => is_Some (row !! k)) cols.

(** The cross-reference columns with the payload key each one is stored under. *)
Definition CROSS_REFERENCE_FIELDS : list (string * string) :=
  [("PROPERTY", "Property"); ("TIME_ASPCT", "Time"); ("SYSTEM", "System");
   ("SCALE_TYP", "Scale"); ("METHOD_TYP", "Method")].

(** The value a cross-reference column of a row resolves to. *)
Definition resolved (part_lookup : gmap string string) (row : Row)
    (field : string) : string :=
  dict_get part_lookup (row !!! field) (row !!! field).

(** The text sent for embedding and the payload of the point of a row that
    has all its columns. *)
Definition text_of (part_lookup : gmap string string) (row : Row) : string :=
  format_text (row !!! "LONG_COMMON_NAME") (row !!! "COMPONENT")
    (resolved part_lookup row "PROPERTY") (resolved part_lookup row "TIME_ASPCT")
    (resolved part_lookup row "SYSTEM") (resolved part_lookup row "SCALE_TYP")
    (resolved part_lookup row "METHOD_TYP") (row !!! "CLASS").

Definition payload_of (part_lookup : gmap string string) (row : Row)
  : gmap string string :=
  make_payload (row !!! "LONG_COMMON_NAME") (row !!! "LOINC_NUM")
    (row !!! "COMPONENT")
    (resolved part_lookup row "PROPERTY") (resolved part_lookup row "TIME_ASPCT")
    (resolved part_lookup row "SYSTEM") (resolved part_lookup row "SCALE_TYP")
    (resolved part_lookup row "METHOD_TYP").

(** The table [create_part_lookup] builds from rows that have both columns. *)
Definition part_table (rows : list Row) (init : gmap string string)
  : gmap string string :=
  foldl (fun acc row => <[row !!! "PartNumber" := row !!! "PartName"]> acc)
        init rows.

(** The columns [main] reads from a row before it asks for the embedding,
    in the order it reads them. *)
Definition PRE_EMBEDDING_COLUMNS : list string :=
  ["COMPONENT"; "PROPERTY"; "TIME_ASPCT"; "SYSTEM"; "SCALE_TYP"; "METHOD_TYP";
   "LONG_COMMON_NAME"; "CLASS"].

(** The first of the columns [cols] that [row] does not have. *)
Fixpoint first_missing (cols : list string) (row : Row) : option string :=
  match cols with
  | [] => None
  | k :: rest =>
      match row !! k with
      | None => Some k
      | Some _ => first_missing rest row
      end
  end.

(** The first missing column of the first row of [rows] that lacks one of
    the columns [cols]. *)
Fixpoint first_bad (cols : list string) (rows : list Row) : option string :=
  match rows with
  | [] => None
  | row :: rest =>
      match first_missing cols row with
      | Some k => Some k
      | None => first_bad cols rest
      end
  end.

Section Vocabulary.

Context {float : Type}.

Implicit Types (w : @World float) (env : @Env float) (row : Row)
  (part_lookup : gmap string string) (p : @PointStruct float)
  (pts : list (@PointStruct float)) (cs : gmap string (@Collection float))
  (reqs : list (@Request float)).

(** The world after one more request to the embedding service. *)
Definition embedded (text : string) w : @World float :=
  mkWorld (collections w) (qdrant_calls w) (acked w)
          (embed_requests w ++ [text]) (stdout w).

(** What the [k]-th call of [get_embedding] evaluates to: the subscript of
    the answer, or the exception of the service. *)
Definition embedding_of env (k : nat) (text : string) : result (@value float) :=
  match ollama_embed env k OLLAMA_MODEL text with
  | Ok response => response_getitem response "embedding"
  | Raise e => Raise e
  end.

(** The exception the [k]-th call of [get_embedding] ends with: the one of
    the service, and the [KeyError] of the subscript when the service
    answered. *)
Definition embed_exn env (k : nat) (text : string) : exn :=
  match ollama_embed env k OLLAMA_MODEL text with
  | Ok _ => KeyError "embedding"
  | Raise e => e
  end.

(** The value the point of the [k]-th request carries as its vector: what
    [get_embedding] returned, the empty list standing for nothing. *)
Definition expected_vector env (k : nat) (text : string) : @value float :=
  match embedding_of env k text with
  | Ok v => v
  | Raise _ => Floats []
  end.

(** The points a run builds from [rows], the first of them at position [i]
    of the enumeration and embedded by request number [k]. *)
Fixpoint expected_points env part_lookup (rows : list Row) (i k : nat)
  : list (@PointStruct float) :=
  match rows with
  | [] => []
  | row :: rest =>
      mkPoint (i + 1) (expected_vector env k (text_of part_lookup row))
              (payload_of part_lookup row)
      :: expected_points env part_lookup rest (S i) (S k)
  end.

Definition is_Ok {A} (r : result A) : Prop :=
  match r with Ok _ => True | Raise _ => False end.

Definition VECTORS_CONFIG : VectorParams := mkVectorParams 768 COSINE.

Definition fresh_collection : @Collection float :=
  mkCollection VECTORS_CONFIG ∅.

(** The collections after [recreate_collection]. *)
Definition recreated (cs : gmap string (@Collection float))
  : gmap string (@Collection float) :=
  <[COLLECTION_NAME := fresh_collection]> (delete COLLECTION_NAME cs).

(** The world of a fresh process once the collection was created, and once
    its creation was refused. *)
Definition created_world (cs : gmap string (@Collection float)) : @World float :=
  mkWorld (recreated cs) 1 [Recreate COLLECTION_NAME VECTORS_CONFIG] []
          ["Collection 'loinc' created."].

Definition refused_world (cs : gmap string (@Collection float)) : @World float :=
  mkWorld cs 1 [] [] ["Could not create collection: Connection refused"].

(** The lookup table and the points of a run. *)
Definition table env : gmap string string := part_table (part_csv env) ∅.

Definition all_points env : list (@PointStruct float) :=
  expected_points env (table env) (loinc_csv env) 0 0.

(** The points of the upserts among the requests [reqs]. *)
Definition upserted (reqs : list (@Request float)) : list (@PointStruct float) :=
  flat_map (fun req => match req with
                       | Upsert _ _ pts => pts
                       | Recreate _ _ => []
                       end) reqs.

(** The tables have the columns the script reads. *)
Definition well_formed_input env : Prop :=
  Forall (has_columns PART_COLUMNS) (part_csv env)
  /\ Forall (has_columns LOINC_COLUMNS) (loinc_csv env).

(** The store answers every request, and the embedding service answers
    every request for the model with one vector of 768 numbers. *)
Definition services_answer env : Prop :=
  (forall k, qdrant_up env k = true)
  /\ forall k text, exists v,
       ollama_embed env k OLLAMA_MODEL text
       = Ok (mkEmbedResponse OLLAMA_MODEL [v])
       /\ length v = 768.



(** What a run comes to, case by case: the part table cannot be loaded;
    the collection cannot be created; the table is empty; the first row
    lacks a column; the embedding of the first row is asked for. *)
Definition outcome env cs : result unit * @World float :=
  match first_bad PART_COLUMNS (part_csv env) with
  | Some k => (Raise (KeyError k), boot cs)
  | None =>
      if qdrant_up env 0 then
        match loinc_csv env with
        | [] => (Ok tt, created_world cs)
        | row :: _ =>
            match first_missing PRE_EMBEDDING_COLUMNS row with
            | Some k => (Raise (KeyError k), created_world cs)
            | None =>
                (Raise (embed_exn env 0 (text_of (table env) row)),
                 embedded (text_of (table env) row) (created_world cs))
            end
        end
      else (Ok tt, refused_world cs)
  end.

End Vocabulary.

(** * Sample tables, services and stores *)

Definition loinc_row (loinc_num component property time_aspct system scale_typ
    method_typ long_common_name class : string) : Row :=
  list_to_map
    [("LOINC_NUM", loinc_num); ("COMPONENT", component);
     ("PROPERTY", property); ("TIME_ASPCT", time_aspct); ("SYSTEM", system);
     ("SCALE_TYP", scale_typ); ("METHOD_TYP", method_typ);
     ("LONG_COMMON_NAME", long_common_name); ("CLASS", class)].

Definition part_row (number name : string) : Row :=
  list_to_map [("PartNumber", number); ("PartName", name)].

Definition sample_parts : list Row :=
  [part_row "Pt" "Point in time"; part_row "Bld" "Blood";
   part_row "Pt" "Point in time (spot)"].

Definition glucose_row : Row :=
  loinc_row "2345-7" "Glucose" "MCnc" "Pt" "Ser/Plas" "Qn" ""
            "Glucose [Mass/volume] in Serum or Plasma" "CHEM".

Definition hemoglobin_row : Row :=
  loinc_row "718-7" "Hemoglobin" "MCnc" "Pt" "Bld" "Qn" ""
            "Hemoglobin [Mass/volume] in Blood" "HEM/BC".

Definition culture_row : Row :=
  loinc_row "600-7" "Bacteria identified" "Prid" "Pt" "Bld" "Nom" "Culture"
            "Bacteria identified in Blood by Culture" "MICRO".

Definition sample_rows : list Row := [glucose_row; hemoglobin_row; culture_row].

(** Vectors with natural numbers for components, one of unit length, and a
    stand-in for the scaling of the store; no sample run has the store keep
    a vector. *)
Definition sample_vector (k : nat) : list nat := repeat k 768.

Definition unit_vector : list nat := 1 :: repeat 0 767.

Definition sample_normalize (v : list nat) : list nat := v.

(** The answer of the embedding service to a request: one vector. *)
Definition answer (v : list nat) : result (@EmbedResponse nat) :=
  Ok (mkEmbedResponse OLLAMA_MODEL [v]).

Definition always_up : nat -> bool := fun _ => true.

(** Both services answer every request. *)
Definition env_ok : @Env nat :=
  mkEnv sample_parts sample_rows (fun k _ _ => answer (sample_vector k))
        always_up sample_normalize.

(** The same input, embedded by a service that gives other vectors. *)
Definition env_rerun : @Env nat :=
  mkEnv sample_parts sample_rows (fun k _ _ => answer (sample_vector (k + 10)))
        always_up sample_normalize.


(** The first embedding request times out, later ones are answered. *)
Definition env_timeout : @Env nat :=
  mkEnv sample_parts sample_rows
        (fun k _ _ => if Nat.eqb k 0 then Raise (ResponseError "timed out")
                      else answer (sample_vector k))
        always_up sample_normalize.

(** The vector store does not answer. *)
Definition env_store_down : @Env nat :=
  mkEnv sample_parts sample_rows (fun k _ _ => answer (sample_vector k))
        (fun _ => false) sample_normalize.

Definition old_point : @PointStruct nat := mkPoint 7 (Floats unit_vector) ∅.

(** A store whose collection has the configuration the script asks for. *)
Definition store_matching : gmap string (@Collection nat) :=
  {[ COLLECTION_NAME := mkCollection VECTORS_CONFIG {[ 7 := old_point ]} ]}.


(** A store that holds a point under the identifier of the first row. *)
Definition store_resumed : gmap string (@Collection nat) :=
  {[ COLLECTION_NAME :=
       mkCollection VECTORS_CONFIG
         {[ 1 := mkPoint 1 (Floats unit_vector)
                         (payload_of (table env_ok) glucose_row) ]} ]}.

#[global] Instance has_columns_dec cols row : Decision (has_columns cols row).
Proof. unfold has_columns. apply _. Defined.

(** ** Further sample inputs *)

(** A table whose header has no SYSTEM column, one without LOINC_NUM, and
    an empty one. *)
Definition env_no_system : @Env nat :=
  mkEnv sample_parts [delete "SYSTEM" glucose_row; delete "SYSTEM" culture_row]
        (fun k _ _ => answer (sample_vector k)) always_up sample_normalize.

Definition env_no_loinc_num : @Env nat :=
  mkEnv sample_parts [delete "LOINC_NUM" glucose_row]
        (fun k _ _ => answer (sample_vector k)) always_up sample_normalize.

Definition env_no_rows : @Env nat :=
  mkEnv sample_parts [] (fun k _ _ => answer (sample_vector k)) always_up
        sample_normalize.

(** A part table whose header has no PartName column. *)
Definition env_bad_parts : @Env nat :=
  mkEnv [delete "PartName" (part_row "Pt" "Point in time");
         delete "PartName" (part_row "Bld" "Blood")]
        sample_rows (fun k _ _ => answer (sample_vector k)) always_up
        sample_normalize.

(** A store that also holds a collection of another name. *)
Definition store_with_other : gmap string (@Collection nat) :=
  <[ "notes" := mkCollection (mkVectorParams 3 DOT)
                             {[ 5 := mkPoint 5 (Floats [1; 2; 3]) ∅ ]} ]> store_matching.

(** * The script [generate_loinc_docs.py]

    The script reads the sample table with [csv.reader], so that a row is
    the list of its fields, takes twelve of them by position and writes one
    Markdown file per row, named after the field at position 0. *)

Inductive docs_exn : Type :=
| IndexError                 (* row[k] past the end of the row *)
| OSError (path : string).   (* open(path, "w") refused *)

Definition newline : string := String (Ascii.ascii_of_nat 10) EmptyString.

(** The f-string of lines 20-93, line by line. *)
Definition chunk_content (loinc_num component prop time_aspct system scale_typ
    method_typ klass long_common_name short_name external_copyright_notice
    status : string) : string :=
  String.concat newline
    ["";
     "# LOINC Code: " +:+ loinc_num;
     "";
     "## Block 1: Primary Code Identification";
     "LOINC Code: " +:+ loinc_num;
     "Long Common Name: " +:+ long_common_name;
     "Short Name: " +:+ short_name;
     "Display Name: " +:+ long_common_name;
     "Status: " +:+ status;
     "";
     "## Block 2: Clinical Terminology and Classification";
     "Component: " +:+ component;
     "Property: " +:+ prop;
     "Time Aspect: " +:+ time_aspct;
     "System: " +:+ system;
     "Scale Type: " +:+ scale_typ;
     "Method Type: " +:+ method_typ;
     "Class: " +:+ klass;
     "";
     "## Block 3: Technical Definition and Measurement";
     "Definition: " +:+ long_common_name;
     "Measurement Type: " +:+ prop;
     "Units: ";
     "Normal Range: ";
     "Calculation: ";
     "";
     "## Block 4: Clinical Context and Applications";
     "Clinical Use: ";
     "Associated Conditions: ";
     "Clinical Significance: ";
     "Diagnostic Applications: ";
     "Panel Associations: ";
     "";
     "## Block 5: Related Laboratory Tests";
     "Panel Members: ";
     "Related LOINC Codes: ";
     "Commonly Ordered With: ";
     "Workflow Relationships: ";
     "";
     "## Block 6: Synonyms and Alternative Names";
     "Synonyms: ";
     "Abbreviations: ";
     "Legacy Terms: ";
     "International Variants: ";
     "Common Names: ";
     "";
     "## Block 7: Specimen and Collection Information";
     "Specimen Type: " +:+ system;
     "Collection Method: ";
     "Container: ";
     "Stability: ";
     "Special Instructions: ";
     "";
     "## Block 8: Quality and Standardization";
     "Method Standardization: ";
     "Quality Control: ";
     "Analytical Variables: ";
     "Precision: ";
     "Interference: ";
     "";
     "## Block 9: Regulatory and Administrative";
     "Copyright: " +:+ external_copyright_notice;
     "Version Information: ";
     "Usage Rights: ";
     "Mapping Standards: ";
     "System Integration: ";
     "";
     "## Block 10: Cross-References and External Mappings";
     "SNOMED CT: ";
     "ICD Codes: ";
     "CPT Codes: ";
     "UCUM Units: ";
     "External IDs: ";
     ""].

(** The name of the file of line 94. *)
Definition chunk_path (loinc_num : string) : string :=
  "/home/deenihl/git/ohdsi/QdrantLoinc/input/" +:+ loinc_num
  +:+ ".loinc-chunk.md".

(** Lines 7-93 for one row: the path and the content of its file, or
    nothing when one of the [row[k]] is out of range. *)
Definition chunk_of_row (row : list string) : option (string * string) :=
  loinc_num ← row !! 0;
  component ← row !! 1;
  prop ← row !! 2;
  time_aspct ← row !! 3;
  system ← row !! 4;
  scale_typ ← row !! 5;
  method_typ ← row !! 6;
  klass ← row !! 7;
  long_common_name ← row !! 9;
  short_name ← row !! 10;
  external_copyright_notice ← row !! 11;
  status ← row !! 12;
  Some (chunk_path loinc_num,
        chunk_content loinc_num component prop time_aspct system scale_typ
          method_typ klass long_common_name short_name
          external_copyright_notice status).

(** The loop of lines 6-95 over the rows of the reader.  The file system
    is the map from the location of a file to its content; [realpath]
    gives the location a path names, so that two paths of one file, such
    as "x" and "./x", have one location; [writable] tells whether a path
    can be opened for writing.  The result is the exception that ended the
    script, if any, and the file system it leaves. *)
Fixpoint generate_docs (realpath : string -> string) (writable : string -> bool)
    (rows : list (list string)) (files : gmap string string)
  : option docs_exn * gmap string string :=
  match rows with
  | [] => (None, files)
  | row :: rest =>
      match chunk_of_row row with
      | None => (Some IndexError, files)
      | Some (path, content) =>
          if writable path
          then generate_docs realpath writable rest
                 (<[realpath path := content]> files)
          else (Some (OSError path), files)
      end
  end.

(** The positions of a row the script reads. *)
Definition DOC_POSITIONS : list nat := [0; 1; 2; 3; 4; 5; 6; 7; 9; 10; 11; 12].

(** A row of the sample table and one cut short. *)
Definition sample_doc_row : list string :=
  ["2345-7"; "Glucose"; "MCnc"; "Pt"; "Ser/Plas"; "Qn"; ""; "CHEM"; "2.73";
   "Glucose [Mass/volume] in Serum or Plasma"; "Glucose SerPl-mCnc"; "";
   "ACTIVE"].

Definition sample_doc_row_2 : list string :=
  ["718-7"; "Hemoglobin"; "MCnc"; "Pt"; "Bld"; "Qn"; ""; "HEM/BC"; "2.73";
   "Hemoglobin [Mass/volume] in Blood"; "Hgb Bld-mCnc"; ""; "ACTIVE"].

Definition short_doc_row : list string := ["600-7"; "Bacteria identified"].

Definition all_writable : string -> bool := fun _ => true.

(** A stand-in for the locations of the sample paths: the path without
    its "/./" segments. *)
Fixpoint drop_dot_segments (s : string) : string :=
  match s with
  | EmptyString => EmptyString
  | String c rest =>
      match rest with
      | String c1 (String c2 _ as tail) =>
          if Ascii.eqb c (Ascii.ascii_of_nat 47)
             && Ascii.eqb c1 (Ascii.ascii_of_nat 46)
             && Ascii.eqb c2 (Ascii.ascii_of_nat 47)
          then drop_dot_segments tail
          else String c (drop_dot_segments rest)
      | _ => String c (drop_dot_segments rest)
      end
  end.

(** The row of the same code written with a leading "./". *)
Definition dotted_doc_row : list string :=
  <[0 := "./2345-7"]> (<[12 := "DEPRECATED"]> sample_doc_row).

(** The file system after the files of [rows] were written in order. *)
Definition docs_written (realpath : string -> string) (rows : list (list string))
    (files : gmap string string) : gmap string string :=
  foldl (fun fs row => match chunk_of_row row with
                       | Some (path, content) => <[realpath path := content]> fs
                       | None => fs
                       end) files rows.

(** * The class [LoincTools] of [loinc_tools.py]: the index of the CSV files

    [CollectCSVs] with its default [makesamples=False], which is also how
    [GetCsvRowsAsJson] calls it, and [GetCsvRowsAsJson].  The file system is
    given by what [glob] finds under a folder and by what reading a file as
    CSV yields: the rows, in order, followed by the exception that ended the
    reading, if any.  [str.strip] and [Path.stem] of the Python library are
    parameters. *)

Definition CODE_COLUMNS : list string :=
  ["LOINC_NUM"; "LOINC"; "CODE"; "LOINC_CODE"].

Record FileSystem : Type := mkFileSystem {
  glob_csv : string -> list string;
  read_csv : string -> list Row * option string
}.

(** The attribute [self.csv_index] and the standard output. *)
Record Tools : Type := mkTools {
  csv_index : gmap string (list string);
  printed : list string
}.

(** Truth value of a string. *)
Definition truthy (s : string) : bool := negb (String.eqb s "").

Section LoincTools.

Variable strip : string -> string.
Variable stem : string -> string.

(** Lines 162-166: the first of the columns that the row has with a
    non-empty value gives the code, stripped. *)
Fixpoint code_in_columns (cols : list string) (row : Row) : option string :=
  match cols with
  | [] => None
  | col :: rest =>
      match row !! col with
      | Some v => if truthy v then Some (strip v) else code_in_columns rest row
      | None => code_in_columns rest row
      end
  end.

Definition code_of_row (row : Row) : option string :=
  code_in_columns CODE_COLUMNS row.

(** Lines 168-172. *)
Definition index_add (csv_file loinc_code : string)
    (index : gmap string (list string)) : gmap string (list string) :=
  if truthy loinc_code then
    let index :=
      match index !! loinc_code with
      | None => <[loinc_code := []]> index
      | Some _ => index
      end in
    let files := default [] (index !! loinc_code) in
    if bool_decide (csv_file ∈ files) then index
    else <[loinc_code := files ++ [csv_file]]> index
  else index.

(** Lines 157-172 for the rows that are read. *)
Definition index_rows (csv_file : string) (rows : list Row)
    (index : gmap string (list string)) : gmap string (list string) :=
  foldl (fun index row =>
           match code_of_row row with
           | Some loinc_code => index_add csv_file loinc_code index
           | None => index
           end) index rows.

(** Lines 152-175 for one file: the loop stops at the row of position 100,
    so that of a longer file only the first 100 rows are indexed and the
    end of the file, with its exception, is not reached. *)
Definition index_file (fs : FileSystem) (csv_file : string)
    (st : gmap string (list string) * list string)
  : gmap string (list string) * list string :=
  let '(rows, raised) := read_csv fs csv_file in
  let index := index_rows csv_file (take 100 rows) (fst st) in
  match raised with
  | Some e =>
      if Nat.leb (length rows) 100
      then (index, snd st ++ ["Warning: Could not process " +:+ csv_file
                              +:+ ": " +:+ e])
      else (index, snd st)
  | None => (index, snd st)
  end.

(** [CollectCSVs(loincfolder)], lines 141-188 with [makesamples=False]. *)
Definition CollectCSVs (fs : FileSystem) (loincfolder : string) (self : Tools)
  : gmap string (list string) * Tools :=
  let out := printed self ++ ["Indexing CSV files in LOINC folder structure..."] in
  let csv_files := glob_csv fs loincfolder in
  let out := out ++ ["Found " +:+ pretty (length csv_files) +:+ " CSV files"] in
  let '(index, out) := foldl (fun st f => index_file fs f st) (∅, out) csv_files in
  let out := out ++ ["Indexed " +:+ pretty (base.size index)
                     +:+ " unique LOINC codes across "
                     +:+ pretty (length csv_files) +:+ " files"] in
  (index, mkTools index out).

(** Lines 224-227: the row has the code in one of the columns. *)
Definition row_matches (loinc : string) (row : Row) : bool :=
  existsb (fun col => match row !! col with
                      | Some v => String.eqb (strip v) loinc
                      | None => false
                      end) CODE_COLUMNS.

(** Lines 215-233 for one file. *)
Definition collect_rows (fs : FileSystem) (loinc csv_file : string)
    (st : gmap string (list Row) * list string)
  : gmap string (list Row) * list string :=
  let csv_name := stem csv_file in
  let '(rows, raised) := read_csv fs csv_file in
  match raised with
  | Some e => (fst st, snd st ++ ["Error reading " +:+ csv_file +:+ ": " +:+ e])
  | None =>
      match filter (fun row => row_matches loinc row = true) rows with
      | [] => st
      | rows => (<[csv_name := rows]> (fst st), snd st)
      end
  end.

(** [GetCsvRowsAsJson(loincfolder, loinc)], lines 204-235. *)
Definition GetCsvRowsAsJson (fs : FileSystem) (loincfolder loinc : string)
    (self : Tools) : gmap string (list Row) * Tools :=
  let self :=
    if bool_decide (csv_index self = ∅)
    then snd (CollectCSVs fs loincfolder self)
    else self in
  match csv_index self !! loinc with
  | None =>
      (∅, mkTools (csv_index self)
                  (printed self ++ ["LOINC code " +:+ loinc
                                    +:+ " not found in index"]))
  | Some csv_files =>
      let '(result, out) :=
        foldl (fun st f => collect_rows fs loinc f st) (∅, printed self)
              csv_files in
      (result, mkTools (csv_index self) out)
  end.

End LoincTools.

Section LoincToolsVocabulary.

Variable strip : string -> string.

(** Among the first 100 rows of the file there is one whose code is [code]. *)
Definition sampled_in (fs : FileSystem) (csv_file code : string) : Prop :=
  exists i row, i < 100
                /\ fst (read_csv fs csv_file) !! i = Some row
                /\ code_of_row strip row = Some code.

(** The index lists the file under the code. *)
Definition indexed (index : gmap string (list string))
    (code csv_file : string) : Prop :=
  exists files, index !! code = Some files /\ csv_file ∈ files.

(** Every entry of the index is a non-empty list without repetitions, under
    a non-empty code, of files that satisfy [Q] for that code. *)
Definition index_sound (Q : string -> string -> Prop)
    (index : gmap string (list string)) : Prop :=
  forall code files,
    index !! code = Some files ->
    truthy code = true /\ NoDup files /\ files ≠ []
    /\ forall f, f ∈ files -> Q code f.

(** The rows of [f] that carry the code, read without an exception. *)
Definition rows_of_file (fs : FileSystem) (loinc f : string) (rows : list Row) : Prop :=
  snd (read_csv fs f) = None
  /\ rows = filter (fun row => row_matches strip loinc row = true)
                   (fst (read_csv fs f))
  /\ rows ≠ [].

End LoincToolsVocabulary.

(** Sample files: one of 101 rows whose last row alone carries the code
    "9999-9", and two files of the same name in different folders. *)
Definition code_row (code : string) : Row := {[ "LOINC_NUM" := code ]}.

Definition sample_fs : FileSystem :=
  mkFileSystem
    (fun _ => ["/data/a/Loinc.csv"; "/data/b/Loinc.csv"; "/data/Long.csv"])
    (fun path =>
       if String.eqb path "/data/a/Loinc.csv"
       then ([code_row "2345-7"; code_row "718-7"], None)
       else if String.eqb path "/data/b/Loinc.csv"
       then ([code_row "2345-7"; <[ "STATUS" := "ACTIVE" ]> (code_row "2345-7")],
             None)
       else if String.eqb path "/data/Long.csv"
       then (replicate 100 (code_row "718-7") ++ [code_row "9999-9"], None)
       else ([], Some "No such file or directory")).

(** A stand-in for [Path.stem] on the sample paths: the part after the last
    slash, without the extension of four characters. *)
Fixpoint after_last_slash (acc s : string) : string :=
  match s with
  | EmptyString => acc
  | String c rest =>
      if Ascii.eqb c (Ascii.ascii_of_nat 47) then after_last_slash rest rest
      else after_last_slash acc rest
  end.

Definition sample_stem (path : string) : string :=
  let name := after_last_slash path path in
  String.substring 0 (String.length name - 4) name.

Definition no_strip (s : string) : string := s.

Definition new_tools : Tools := mkTools ∅ [].

(** * Facts about the model *)

Section Facts.

Context {float : Type}.

Implicit Types (w : @World float) (env : @Env float) (row : Row)
  (part_lookup : gmap string string) (p : @PointStruct float)
  (pts : list (@PointStruct float)) (cs : gmap string (@Collection float))
  (reqs : list (@Request float)).

(** ** Rows and lookups *)

Lemma lookup_total_Some row k v : row !! k = Some v -> row !!! k = v.
Proof. intros H. by rewrite lookup_total_alt, H. Qed.

Lemma getitem_Some row k v w : row !! k = Some v -> getitem row k w = (Ok v, w).
Proof. intros H. unfold getitem. by rewrite H. Qed.

Lemma getitem_None row k w :
  row !! k = None -> getitem row k w = (Raise (KeyError k), w).
Proof. intros H. unfold getitem. by rewrite H. Qed.

Lemma resolve_Some part_lookup row field code w :
  row !! field = Some code ->
  resolve part_lookup row field w = (Ok (dict_get part_lookup code code), w).
Proof.
  intros H. unfold resolve, bind. by rewrite !(getitem_Some _ _ _ _ H).
Qed.

Lemma resolved_Some part_lookup row field code :
  row !! field = Some code ->
  resolved part_lookup row field = dict_get part_lookup code code.
Proof. intros H. unfold resolved. by rewrite (lookup_total_Some _ _ _ H). Qed.

Lemma has_columns_lookup cols row k :
  has_columns cols row -> k ∈ cols -> row !! k = Some (row !!! k).
Proof.
  intros H Hk. unfold has_columns in H. rewrite Forall_forall in H.
  destruct (H k Hk) as [v Hv]. by rewrite (lookup_total_Some _ _ _ Hv).
Qed.

Lemma first_missing_None cols row :
  first_missing cols row = None <-> has_columns cols row.
Proof.
  unfold has_columns. induction cols as [|k cols IH]; simpl.
  - split; [constructor|done].
  - destruct (row !! k) as [v|] eqn:E.
    + rewrite IH. split.
      * intros H. constructor; [by rewrite E|done].
      * intros H. by apply Forall_cons_1 in H as [_ H].
    + split; [discriminate|]. intros H.
      apply Forall_cons_1 in H as [[v Hv] _]. congruence.
Qed.


Lemma first_bad_None cols (rows : list Row) :
  first_bad cols rows = None <-> Forall (has_columns cols) rows.
Proof.
  induction rows as [|row rows IH]; simpl.
  - split; [constructor|done].
  - destruct (first_missing cols row) as [k|] eqn:E.
    + split; [discriminate|]. intros H. apply Forall_cons_1 in H as [H _].
      apply first_missing_None in H. congruence.
    + rewrite IH. apply first_missing_None in E. split.
      * intros H. by constructor.
      * intros H. by apply Forall_cons_1 in H as [_ H].
Qed.


(** ** Sequencing *)

Lemma bind_raise {A B} (m : M A) (f : A -> M B) w e w' :
  m w = (Raise e, w') -> bind (float := float) m f w = (Raise e, w').
Proof. intros H. unfold bind. by rewrite H. Qed.

Lemma bind_getitem_Some {B} row k v (f : string -> M B) w :
  row !! k = Some v -> bind (float := float) (getitem row k) f w = f v w.
Proof. intros H. unfold bind. by rewrite (getitem_Some _ _ _ _ H). Qed.

Lemma bind_getitem_None {B} row k (f : string -> M B) w :
  row !! k = None ->
  bind (float := float) (getitem row k) f w = (Raise (KeyError k), w).
Proof. intros H. unfold bind. by rewrite (getitem_None _ _ _ H). Qed.

Lemma bind_resolve_Some {B} part_lookup row k v (f : string -> M B) w :
  row !! k = Some v ->
  bind (float := float) (resolve part_lookup row k) f w
  = f (dict_get part_lookup v v) w.
Proof. intros H. unfold bind. by rewrite (resolve_Some _ _ _ _ _ H). Qed.

Lemma bind_resolve_None {B} part_lookup row k (f : string -> M B) w :
  row !! k = None ->
  bind (float := float) (resolve part_lookup row k) f w
  = (Raise (KeyError k), w).
Proof.
  intros H. unfold resolve. unfold bind at 1 2.
  by rewrite (getitem_None _ _ _ H).
Qed.

(** ** The embedding call *)

Lemma response_getitem_embedding (response : @EmbedResponse float) :
  response_getitem response "embedding" = Raise (KeyError "embedding").
Proof. reflexivity. Qed.

Lemma embedding_of_raises env k text :
  embedding_of env k text = Raise (embed_exn env k text).
Proof.
  unfold embedding_of, embed_exn.
  destruct (ollama_embed env k OLLAMA_MODEL text); [|done].
  apply response_getitem_embedding.
Qed.

Lemma get_embedding_unfold env text w :
  get_embedding env text w
  = (embedding_of env (length (embed_requests w)) text, embedded text w).
Proof.
  unfold get_embedding, bind, ollama_client_embed, embedding_of, lift.
  by destruct (ollama_embed env _ _ _).
Qed.

Lemma get_embedding_raises env text w :
  get_embedding env text w
  = (Raise (embed_exn env (length (embed_requests w)) text), embedded text w).
Proof. by rewrite get_embedding_unfold, embedding_of_raises. Qed.

(** ** One row *)

Lemma main_row_missing_column env part_lookup i row w k :
  first_missing PRE_EMBEDDING_COLUMNS row = Some k ->
  main_row env part_lookup i row w = (Raise (KeyError k), w).
Proof.
  unfold PRE_EMBEDDING_COLUMNS, main_row. cbn [first_missing].
  destruct (row !! "COMPONENT") as [v0|] eqn:E0.
  2: { intros [= <-]. by rewrite (bind_getitem_None _ _ _ _ E0). }
  rewrite (bind_getitem_Some _ _ _ _ _ E0).
  destruct (row !! "PROPERTY") as [v1|] eqn:E1.
  2: { intros [= <-]. by rewrite (bind_resolve_None _ _ _ _ _ E1). }
  rewrite (bind_resolve_Some _ _ _ _ _ _ E1).
  destruct (row !! "TIME_ASPCT") as [v2|] eqn:E2.
  2: { intros [= <-]. by rewrite (bind_resolve_None _ _ _ _ _ E2). }
  rewrite (bind_resolve_Some _ _ _ _ _ _ E2).
  destruct (row !! "SYSTEM") as [v3|] eqn:E3.
  2: { intros [= <-]. by rewrite (bind_resolve_None _ _ _ _ _ E3). }
  rewrite (bind_resolve_Some _ _ _ _ _ _ E3).
  destruct (row !! "SCALE_TYP") as [v4|] eqn:E4.
  2: { intros [= <-]. by rewrite (bind_resolve_None _ _ _ _ _ E4). }
  rewrite (bind_resolve_Some _ _ _ _ _ _ E4).
  destruct (row !! "METHOD_TYP") as [v5|] eqn:E5.
  2: { intros [= <-]. by rewrite (bind_resolve_None _ _ _ _ _ E5). }
  rewrite (bind_resolve_Some _ _ _ _ _ _ E5).
  destruct (row !! "LONG_COMMON_NAME") as [v6|] eqn:E6.
  2: { intros [= <-]. by rewrite (bind_getitem_None _ _ _ _ E6). }
  rewrite (bind_getitem_Some _ _ _ _ _ E6).
  destruct (row !! "CLASS") as [v7|] eqn:E7.
  2: { intros [= <-]. by rewrite (bind_getitem_None _ _ _ _ E7). }
  discriminate.
Qed.

Lemma main_row_embeds env part_lookup i row w :
  has_columns PRE_EMBEDDING_COLUMNS row ->
  main_row env part_lookup i row w
  = (Raise (embed_exn env (length (embed_requests w)) (text_of part_lookup row)),
     embedded (text_of part_lookup row) w).
Proof.
  intros Hc. unfold has_columns, PRE_EMBEDDING_COLUMNS in Hc.
  repeat match goal with
  | H : Forall _ (_ :: _) |- _ =>
      apply Forall_cons_1 in H; destruct H as [[? ?] H]
  end.
  unfold text_of, resolved.
  repeat match goal with
  | H : row !! ?k = Some _ |- _ =>
      rewrite !(lookup_total_Some row k _ H); revert H
  end.
  intros. unfold main_row.
  repeat (first [ erewrite bind_getitem_Some by eassumption
                | erewrite bind_resolve_Some by eassumption ]; cbv beta).
  apply bind_raise, get_embedding_raises.
Qed.

Lemma main_row_outcome env part_lookup i row w :
  main_row env part_lookup i row w
  = match first_missing PRE_EMBEDDING_COLUMNS row with
    | Some k => (Raise (KeyError k), w)
    | None =>
        (Raise (embed_exn env (length (embed_requests w))
                          (text_of part_lookup row)),
         embedded (text_of part_lookup row) w)
    end.
Proof.
  destruct (first_missing PRE_EMBEDDING_COLUMNS row) as [k|] eqn:E.
  - by apply main_row_missing_column.
  - by apply main_row_embeds, first_missing_None.
Qed.

Lemma main_row_never_returns env part_lookup i row w p w' :
  main_row env part_lookup i row w ≠ (Ok p, w').
Proof.
  rewrite main_row_outcome. by destruct (first_missing _ _).
Qed.

Lemma main_loop_cons env part_lookup row (rest : list Row) i pts w :
  main_loop env part_lookup (row :: rest) i pts w
  = match first_missing PRE_EMBEDDING_COLUMNS row with
    | Some k => (Raise (KeyError k), w)
    | None =>
        (Raise (embed_exn env (length (embed_requests w))
                          (text_of part_lookup row)),
         embedded (text_of part_lookup row) w)
    end.
Proof.
  cbn [main_loop].
  destruct (first_missing PRE_EMBEDDING_COLUMNS row) as [k|] eqn:E;
    apply bind_raise; by rewrite main_row_outcome, E.
Qed.

(** ** The part lookup table *)

Lemma part_table_cons row (rows : list Row) init :
  part_table (row :: rows) init
  = part_table rows (<[row !!! "PartNumber" := row !!! "PartName"]> init).
Proof. done. Qed.

Lemma create_part_lookup_rows_outcome (rows : list Row) init w :
  create_part_lookup_rows rows init w
  = match first_bad PART_COLUMNS rows with
    | Some k => (Raise (KeyError k), w)
    | None => (Ok (part_table rows init), w)
    end.
Proof.
  revert init. induction rows as [|row rest IH]; intros init; [done|].
  cbn [create_part_lookup_rows first_bad]. unfold PART_COLUMNS at 1.
  cbn [first_missing].
  destruct (row !! "PartName") as [name|] eqn:Hname.
  2: { by rewrite (bind_getitem_None _ _ _ _ Hname). }
  rewrite (bind_getitem_Some _ _ _ _ _ Hname).
  destruct (row !! "PartNumber") as [number|] eqn:Hnumber.
  2: { by rewrite (bind_getitem_None _ _ _ _ Hnumber). }
  rewrite (bind_getitem_Some _ _ _ _ _ Hnumber), IH, part_table_cons.
  by rewrite (lookup_total_Some _ _ _ Hname), (lookup_total_Some _ _ _ Hnumber).
Qed.

Lemma create_part_lookup_complete env w :
  Forall (has_columns PART_COLUMNS) (part_csv env) ->
  create_part_lookup env w = (Ok (table env), w).
Proof.
  intros H. apply first_bad_None in H. unfold create_part_lookup.
  by rewrite create_part_lookup_rows_outcome, H.
Qed.

Lemma part_table_app (l1 l2 : list Row) init :
  part_table (l1 ++ l2) init = part_table l2 (part_table l1 init).
Proof. unfold part_table. apply foldl_app. Qed.

Lemma part_table_other (rows : list Row) init k :
  Forall (fun row => row !!! "PartNumber" ≠ k) rows ->
  part_table rows init !! k = init !! k.
Proof.
  revert init. induction rows as [|row rest IH]; intros init Hne; [done|].
  apply Forall_cons_1 in Hne as [Hrow Hrest].
  rewrite part_table_cons, (IH _ Hrest). by apply lookup_insert_ne.
Qed.

Lemma part_table_last (before : list Row) row after init :
  Forall (fun r => r !!! "PartNumber" ≠ row !!! "PartNumber") after ->
  part_table (before ++ row :: after) init !! (row !!! "PartNumber")
  = Some (row !!! "PartName").
Proof.
  intros Hafter. rewrite part_table_app, part_table_cons.
  rewrite (part_table_other _ _ _ Hafter). apply lookup_insert_eq.
Qed.

(** ** The run *)

Lemma main_create_up env w :
  qdrant_up env (qdrant_calls w) = true ->
  main_create env w
  = (Ok true,
     mkWorld (recreated (collections w)) (S (qdrant_calls w))
             (acked w ++ [Recreate COLLECTION_NAME VECTORS_CONFIG])
             (embed_requests w) (stdout w ++ ["Collection 'loinc' created."])).
Proof.
  intros Hup. unfold main_create, try_except, bind, qdrant_request.
  by rewrite Hup.
Qed.

Lemma main_create_down env w :
  qdrant_up env (qdrant_calls w) = false ->
  main_create env w
  = (Ok false,
     mkWorld (collections w) (S (qdrant_calls w)) (acked w) (embed_requests w)
             (stdout w ++ ["Could not create collection: Connection refused"])).
Proof.
  intros Hup. unfold main_create, try_except, bind, qdrant_request.
  by rewrite Hup.
Qed.

Lemma run_outcome env cs : run env cs = outcome env cs.
Proof.
  unfold run, main, outcome, create_part_lookup. unfold bind at 1.
  rewrite create_part_lookup_rows_outcome. fold (table env).
  destruct (first_bad PART_COLUMNS (part_csv env)) as [k|]; [done|].
  unfold bind at 1. destruct (qdrant_up env 0) eqn:Hup.
  - rewrite main_create_up by done.
    destruct (loinc_csv env) as [|row rest]; [done|].
    destruct (first_missing PRE_EMBEDDING_COLUMNS row) as [k|] eqn:E;
      apply bind_raise; by rewrite main_loop_cons, E.
  - by rewrite main_create_down.
Qed.

Lemma recreated_lookup cs : recreated cs !! COLLECTION_NAME = Some fresh_collection.
Proof. unfold recreated. apply lookup_insert_eq. Qed.

Lemma recreated_lookup_ne cs name :
  name ≠ COLLECTION_NAME -> recreated cs !! name = cs !! name.
Proof.
  intros Hne. unfold recreated.
  rewrite lookup_insert_ne by done. by apply lookup_delete_ne.
Qed.

(** The world a run leaves has one of four shapes. *)
Lemma run_world env cs :
  snd (run env cs) = boot cs
  \/ snd (run env cs) = refused_world cs
  \/ snd (run env cs) = created_world cs
  \/ exists text, snd (run env cs) = embedded text (created_world cs).
Proof.
  rewrite run_outcome. unfold outcome.
  destruct (first_bad _ _); [by left|].
  destruct (qdrant_up env 0); [|by right; left].
  destruct (loinc_csv env) as [|row rest]; [by right; right; left|].
  destruct (first_missing _ _); [by right; right; left|].
  right; right; right. by eexists.
Qed.

(** * The properties of the pipeline *)


(** C2 (the defect). The identifier of a row is its position plus one, but
    no point is ever stored under it.  On well-formed, non-empty tables,
    with a store that answers and an embedding service that answers every
    request with a vector of 768 numbers, the first run and the run after
    it both end with [KeyError] 'embedding' on their first row, and the
    collection is empty after each of them. *)
Theorem C2_rerun_leaves_the_collection_empty env1 env2 cs :
  part_csv env1 = part_csv env2 ->
  loinc_csv env1 = loinc_csv env2 ->
  well_formed_input env1 ->
  services_answer env1 ->
  services_answer env2 ->
  loinc_csv env1 ≠ [] ->
  let w1 := snd (run env1 cs) in
  let w2 := snd (run env2 (collections w1)) in
  fst (run env1 cs) = Raise (KeyError "embedding")
  /\ fst (run env2 (collections w1)) = Raise (KeyError "embedding")
  /\ upserted (acked w1) = []
  /\ upserted (acked w2) = []
  /\ collections w1 !! COLLECTION_NAME = Some fresh_collection
  /\ collections w2 !! COLLECTION_NAME = Some fresh_collection
  /\ forall j, points (@fresh_collection float) !! (j + 1) = None.
Proof.
  intros Hpart Hloinc [Hparts Hrows] [Hup1 Hans1] [Hup2 Hans2] Hne w1 w2.
  assert (Hrun : forall env cs0,
            part_csv env = part_csv env1 -> loinc_csv env = loinc_csv env1 ->
            (forall k, qdrant_up env k = true) ->
            (forall k text, exists v,
               ollama_embed env k OLLAMA_MODEL text
               = Ok (mkEmbedResponse OLLAMA_MODEL [v]) /\ length v = 768) ->
            exists text,
              run env cs0 = (Raise (KeyError "embedding"),
                             embedded text (created_world cs0))).
  { intros env cs0 Hp Hl Hup Hans. rewrite run_outcome. unfold outcome.
    rewrite Hp, Hl, Hup.
    apply first_bad_None in Hparts. rewrite Hparts.
    destruct (loinc_csv env1) as [|row rest]; [done|].
    apply Forall_cons_1 in Hrows as [Hrow _].
    assert (Hpre : first_missing PRE_EMBEDDING_COLUMNS row = None).
    { apply first_missing_None. unfold has_columns, LOINC_COLUMNS in Hrow.
      unfold has_columns, PRE_EMBEDDING_COLUMNS.
      repeat (apply Forall_cons_1 in Hrow as [? Hrow]).
      repeat constructor; done. }
    rewrite Hpre. eexists. unfold embed_exn.
    destruct (Hans 0 (text_of (table env) row)) as (v & -> & _). done. }
  destruct (Hrun env1 cs eq_refl eq_refl Hup1 Hans1) as [t1 H1].
  destruct (Hrun env2 (collections w1) (eq_sym Hpart) (eq_sym Hloinc) Hup2 Hans2)
    as [t2 H2].
  unfold w2. rewrite H2. unfold w1. rewrite H1.
  cbn [fst snd acked collections embedded created_world upserted flat_map app].
  repeat split; try done; apply recreated_lookup.
Qed.

(** C3 (as amended). A cross-reference code without an entry in the lookup
    table resolves to the raw code itself, without an exception and without
    touching the world, and that raw code is what the payload of the row's
    point stores under the field's key; the resolved value is therefore
    empty only when the raw code is the empty string. *)
Theorem C3_unresolved_code_passes_through part_lookup row field key code :
  (field, key) ∈ CROSS_REFERENCE_FIELDS ->
  row !! field = Some code ->
  part_lookup !! code = None ->
  (forall w, resolve part_lookup row field w = (Ok code, w))
  /\ (forall env i w p w',
        main_row env part_lookup i row w = (Ok p, w') ->
        payload p !! key = Some code)
  /\ (code ≠ "" -> resolved part_lookup row field ≠ "").
Proof.
  intros Hfield Hcode Hnone.
  assert (Hres : resolved part_lookup row field = code)
    by (rewrite (resolved_Some _ _ _ _ Hcode); unfold dict_get; by rewrite Hnone).
  split.
  { intros w. rewrite (resolve_Some _ _ _ _ _ Hcode). unfold dict_get.
    by rewrite Hnone. }
  split; [|by rewrite Hres].
  intros env i w p w' Hrow. by apply main_row_never_returns in Hrow.
Qed.


(** C5 (as amended). The script takes no offset and cannot resume.  The
    texts a run sends to the embedding service are those of the rows of the
    table from the first one on, in order and without a gap; when the table
    is loaded, the collection created and the first row has its columns,
    the first row is sent.  What the store held when the run started has no
    influence: result and requests to both services are the same from every
    initial state of the store, and so is the destination collection once
    it was created. *)
Theorem C5_every_run_starts_from_the_first_row env cs cs' :
  embed_requests (snd (run env cs))
    `prefix_of` map (text_of (table env)) (loinc_csv env)
  /\ (forall row rest,
        loinc_csv env = row :: rest ->
        has_columns PRE_EMBEDDING_COLUMNS row ->
        Forall (has_columns PART_COLUMNS) (part_csv env) ->
        qdrant_up env 0 = true ->
        head (embed_requests (snd (run env cs))) = Some (text_of (table env) row))
  /\ fst (run env cs') = fst (run env cs)
  /\ embed_requests (snd (run env cs')) = embed_requests (snd (run env cs))
  /\ acked (snd (run env cs')) = acked (snd (run env cs))
  /\ (Forall (has_columns PART_COLUMNS) (part_csv env) ->
      qdrant_up env 0 = true ->
      collections (snd (run env cs')) !! COLLECTION_NAME
      = collections (snd (run env cs)) !! COLLECTION_NAME).
Proof.
  split; [|split].
  - rewrite run_outcome. unfold outcome.
    destruct (first_bad _ _); [apply prefix_nil|].
    destruct (qdrant_up env 0); [|apply prefix_nil].
    destruct (loinc_csv env) as [|row rest]; [apply prefix_nil|].
    destruct (first_missing _ _); [apply prefix_nil|].
    simpl. by apply prefix_cons, prefix_nil.
  - intros row rest Hcsv Hrow Hparts Hup.
    apply first_bad_None in Hparts. apply first_missing_None in Hrow.
    rewrite run_outcome. unfold outcome. by rewrite Hparts, Hup, Hcsv, Hrow.
  - rewrite !run_outcome. unfold outcome.
    destruct (first_bad PART_COLUMNS (part_csv env)) as [k|] eqn:Hparts.
    { repeat split; try done. intros H. apply first_bad_None in H. congruence. }
    destruct (qdrant_up env 0); [|repeat split; done].
    destruct (loinc_csv env) as [|row rest];
      [|destruct (first_missing _ _)];
      cbn [fst snd acked collections embed_requests embedded created_world];
      repeat split; try done; intros _ _; by rewrite !recreated_lookup.
Qed.


(** C7 (as amended). [get_embedding] makes one request to the embedding
    service and lets its failure escape.  When the answer to a request of
    the run is an exception, that request is the last one of the run: the
    run ends with this very exception, without another attempt, and the
    process exits with status 1. *)
Theorem C7_embedding_failure_ends_the_run env cs j text e :
  embed_requests (snd (run env cs)) !! j = Some text ->
  ollama_embed env j OLLAMA_MODEL text = Raise e ->
  fst (run env cs) = Raise e
  /\ exit_code (fst (run env cs)) = 1
  /\ length (embed_requests (snd (run env cs))) = S j
  /\ forall w,
       get_embedding env text w
       = (match ollama_embed env (length (embed_requests w)) OLLAMA_MODEL text with
          | Ok response => response_getitem response "embedding"
          | Raise e' => Raise e'
          end, embedded text w).
Proof.
  intros Hj Hfail.
  assert (Hrun : fst (run env cs) = Raise e
                 /\ length (embed_requests (snd (run env cs))) = S j).
  { revert Hj. rewrite run_outcome. unfold outcome.
    destruct (first_bad _ _); [done|]. destruct (qdrant_up env 0); [|done].
    destruct (loinc_csv env) as [|row rest]; [done|].
    destruct (first_missing _ _); [done|].
    cbn [fst snd embed_requests embedded created_world app].
    destruct j as [|j]; [|done]. intros [= <-].
    unfold embed_exn. by rewrite Hfail. }
  destruct Hrun as [Hr Hl].
  split; [done|]. split; [by rewrite Hr|]. split; [done|].
  intros w. apply get_embedding_unfold.
Qed.

(** C8 (as amended). The exit status is 0 exactly when [main] returns and
    1 exactly when an exception escapes it.  [main] also returns when the
    collection could not be created: the exception is caught, a message is
    printed and nothing is ingested.  When the collection was created,
    status 0 means that the points of all rows were committed. *)
Theorem C8_exit_status env cs :
  (exit_code (fst (run env cs)) = 0 <-> fst (run env cs) = Ok tt)
  /\ (exit_code (fst (run env cs)) = 1 <-> exists e, fst (run env cs) = Raise e)
  /\ (qdrant_up env 0 = false ->
      Forall (has_columns PART_COLUMNS) (part_csv env) ->
      exit_code (fst (run env cs)) = 0 /\ snd (run env cs) = refused_world cs)
  /\ (qdrant_up env 0 = true ->
      exit_code (fst (run env cs)) = 0 ->
      upserted (acked (snd (run env cs))) = all_points env
      /\ length (all_points env) = length (loinc_csv env)).
Proof.
  assert (H0 : exit_code (fst (run env cs)) = 0 <-> fst (run env cs) = Ok tt).
  { destruct (fst (run env cs)) as [[]|e]; simpl; split; done. }
  split; [done|]. split.
  { destruct (fst (run env cs)) as [[]|e]; simpl; split; try done.
    - by intros [e He].
    - eauto. }
  split.
  { intros Hdown Hparts. apply first_bad_None in Hparts.
    rewrite run_outcome. unfold outcome. by rewrite Hparts, Hdown. }
  intros Hup. rewrite run_outcome. unfold outcome, all_points. rewrite Hup.
  destruct (first_bad _ _); [done|].
  destruct (loinc_csv env) as [|row rest]; [done|].
  by destruct (first_missing _ _).
Qed.

(** C9. When several rows of the part table carry the same PartNumber, the
    lookup table maps it to the PartName of the last of them in file order,
    and loading succeeds. *)
Theorem C9_last_duplicate_part_wins env before row after number name w :
  part_csv env = before ++ row :: after ->
  Forall (has_columns PART_COLUMNS) (part_csv env) ->
  row !! "PartNumber" = Some number ->
  row !! "PartName" = Some name ->
  Forall (fun r => r !! "PartNumber" ≠ Some number) after ->
  exists part_lookup,
    create_part_lookup env w = (Ok part_lookup, w)
    /\ part_lookup !! number = Some name.
Proof.
  intros Hcsv Hcols Hnumber Hname Hafter.
  exists (table env). split; [by apply create_part_lookup_complete|].
  unfold table. rewrite Hcsv.
  rewrite <- (lookup_total_Some _ _ _ Hnumber), <- (lookup_total_Some _ _ _ Hname).
  apply part_table_last.
  rewrite Hcsv in Hcols. apply Forall_app in Hcols as [_ Hcols].
  apply Forall_cons_1 in Hcols as [_ Hcols].
  rewrite Forall_forall in Hafter, Hcols. apply Forall_forall.
  intros r Hr Heq.
  apply (Hafter r Hr).
  rewrite (has_columns_lookup _ _ "PartNumber" (Hcols r Hr)
             ltac:(unfold PART_COLUMNS; repeat constructor)).
  rewrite Heq. by rewrite (lookup_total_Some _ _ _ Hnumber).
Qed.

(** C10 (the defect). For every row with the columns [main] reads and
    every lookup table, also one that has an entry for the value, the text
    sent for embedding carries the COMPONENT value as it stands in the row,
    after "Component: " and before ". Property: ".  The payload with its
    "Component" entry is never built: the call of [get_embedding] raises,
    with [KeyError] 'embedding' when the service answered, and [main_row]
    yields no point. *)
Theorem C10_component_in_the_text_no_payload
    env part_lookup i row w component :
  has_columns LOINC_COLUMNS row ->
  row !! "COMPONENT" = Some component ->
  (exists rest,
     embed_requests (snd (main_row env part_lookup i row w))
     = embed_requests w
       ++ ["This LOINC term is for '" +:+ (row !!! "LONG_COMMON_NAME")
           +:+ "'. Component: " +:+ component +:+ ". Property: " +:+ rest])
  /\ (exists e, fst (main_row env part_lookup i row w) = Raise e)
  /\ (forall response,
        ollama_embed env (length (embed_requests w)) OLLAMA_MODEL
                     (text_of part_lookup row) = Ok response ->
        fst (main_row env part_lookup i row w) = Raise (KeyError "embedding")).
Proof.
  intros Hcols Hcomponent.
  assert (Hpre : has_columns PRE_EMBEDDING_COLUMNS row).
  { unfold has_columns, LOINC_COLUMNS in Hcols.
    unfold has_columns, PRE_EMBEDDING_COLUMNS.
    repeat (apply Forall_cons_1 in Hcols as [? Hcols]).
    repeat constructor; done. }
  rewrite (main_row_embeds _ _ _ _ _ Hpre). cbn [fst snd embedded embed_requests].
  split; [|split; [by eexists|]].
  - eexists. unfold text_of, format_text.
    by rewrite (lookup_total_Some _ _ _ Hcomponent).
  - intros response Hans. unfold embed_exn. by rewrite Hans.
Qed.

End Facts.

(** * Concrete runs *)

(** Three rows whose TIME_ASPCT code is in the lookup table and whose
    PROPERTY code is not, with services that answer: the text of the first
    row carries the display name of the one and the raw code of the other;
    the run ends on that row with [KeyError] 'embedding', after the
    creation of the collection, and no point is upserted. *)
Example three_rows_no_point :
  fst (run env_ok ∅) = Raise (KeyError "embedding")
  /\ embed_requests (snd (run env_ok ∅))
     = ["This LOINC term is for 'Glucose [Mass/volume] in Serum or Plasma'. Component: Glucose. Property: MCnc. Time Aspect: Point in time (spot). System: Ser/Plas. Scale: Qn. Method: . Class: CHEM."]
  /\ acked (snd (run env_ok ∅)) = [Recreate COLLECTION_NAME VECTORS_CONFIG]
  /\ stdout (snd (run env_ok ∅)) = ["Collection 'loinc' created."].
Proof. repeat split; vm_compute; reflexivity. Qed.

Lemma sample_parts_columns : Forall (has_columns PART_COLUMNS) sample_parts.
Proof. apply (bool_decide_unpack _). vm_compute. exact I. Defined.

Lemma sample_rows_columns : Forall (has_columns LOINC_COLUMNS) sample_rows.
Proof. apply (bool_decide_unpack _). vm_compute. exact I. Defined.

Lemma glucose_row_columns : has_columns LOINC_COLUMNS glucose_row.
Proof. apply (bool_decide_unpack _). vm_compute. exact I. Defined.

Lemma glucose_row_pre_columns : has_columns PRE_EMBEDDING_COLUMNS glucose_row.
Proof. apply (bool_decide_unpack _). vm_compute. exact I. Defined.

Lemma sample_rows_not_empty : sample_rows ≠ [].
Proof. discriminate. Defined.

Lemma env_ok_answers : services_answer env_ok.
Proof.
  split; [reflexivity|]. intros k text. exists (sample_vector k).
  split; [reflexivity | apply repeat_length].
Defined.

Lemma env_rerun_answers : services_answer env_rerun.
Proof.
  split; [reflexivity|]. intros k text. exists (sample_vector (k + 10)).
  split; [reflexivity | apply repeat_length].
Defined.



(** C2: the sample tables, ingested twice by services that answer. *)
Lemma C2_witness :
  fst (run env_ok store_matching) = Raise (KeyError "embedding")
  /\ fst (run env_rerun (collections (snd (run env_ok store_matching))))
     = Raise (KeyError "embedding")
  /\ collections (snd (run env_rerun
                         (collections (snd (run env_ok store_matching)))))
       !! COLLECTION_NAME = Some fresh_collection.
Proof.
  destruct (C2_rerun_leaves_the_collection_empty env_ok env_rerun
              store_matching eq_refl eq_refl
              (conj sample_parts_columns sample_rows_columns)
              env_ok_answers env_rerun_answers sample_rows_not_empty)
    as (H1 & H2 & _ & _ & _ & H3 & _).
  split; [exact H1|]. split; [exact H2 | exact H3].
Defined.

(** C3: METHOD_TYP of the glucose row is the empty string and the lookup
    table has no entry for it; the resolved value is empty. *)
Lemma C3_empty_code_resolves_to_empty :
  glucose_row !! "METHOD_TYP" = Some ""
  /\ table env_ok !! "" = None
  /\ resolve (float := nat) (table env_ok) glucose_row "METHOD_TYP" (boot ∅)
     = (Ok "", boot ∅)
  /\ resolved (table env_ok) glucose_row "METHOD_TYP" = "".
Proof. repeat split; vm_compute; reflexivity. Qed.

Lemma C3_witness :
  culture_row !! "PROPERTY" = Some "Prid"
  /\ table env_ok !! "Prid" = None
  /\ resolve (float := nat) (table env_ok) culture_row "PROPERTY" (boot ∅)
     = (Ok "Prid", boot ∅).
Proof.
  assert (Hfield : ("PROPERTY", "Property") ∈ CROSS_REFERENCE_FIELDS)
    by (apply (bool_decide_unpack _); vm_compute; exact I).
  assert (Hcode : culture_row !! "PROPERTY" = Some "Prid")
    by (vm_compute; reflexivity).
  assert (Hnone : table env_ok !! "Prid" = None) by (vm_compute; reflexivity).
  split; [exact Hcode|]. split; [exact Hnone|].
  exact (proj1 (C3_unresolved_code_passes_through (float := nat) _ _ _ _ _
                  Hfield Hcode Hnone) (boot ∅)).
Defined.


(** C5: the store holds a point under the identifier of the first row, so
    that a run resumed from offset 1 would skip that row and keep the
    point; the run sends the first row to the embedding service again and
    the point is gone. *)
Lemma C5_first_row_processed_again :
  (store_resumed !! COLLECTION_NAME ≫= fun c => id <$> points c !! 1) = Some 1
  /\ head (embed_requests (snd (run env_ok store_resumed)))
     = Some (text_of (table env_ok) glucose_row)
  /\ sample_rows !! 0 = Some glucose_row
  /\ (collections (snd (run env_ok store_resumed)) !! COLLECTION_NAME
        ≫= fun c => id <$> points c !! 1) = None
  /\ head (acked (snd (run env_ok store_resumed)))
     = Some (Recreate COLLECTION_NAME VECTORS_CONFIG).
Proof. repeat split; vm_compute; reflexivity. Qed.

Lemma C5_witness :
  head (embed_requests (snd (run env_ok store_resumed)))
  = Some (text_of (table env_ok) glucose_row).
Proof.
  exact (proj1 (proj2 (C5_every_run_starts_from_the_first_row env_ok
                         store_resumed ∅))
               glucose_row [hemoglobin_row; culture_row] eq_refl
               glucose_row_pre_columns sample_parts_columns eq_refl).
Defined.




(** C7: the first request times out and the second one would be answered;
    the run makes a single request and ends with the time-out. *)
Lemma C7_no_second_attempt :
  fst (run env_timeout ∅) = Raise (ResponseError "timed out")
  /\ length (embed_requests (snd (run env_timeout ∅))) = 1
  /\ is_Ok (ollama_embed env_timeout 1 OLLAMA_MODEL
              (text_of (table env_timeout) glucose_row))
  /\ upserted (acked (snd (run env_timeout ∅))) = [].
Proof. repeat split; vm_compute; reflexivity. Qed.

Lemma C7_witness :
  fst (run env_timeout ∅) = Raise (ResponseError "timed out")
  /\ exit_code (fst (run env_timeout ∅)) = 1.
Proof.
  assert (Hj : embed_requests (snd (run env_timeout ∅)) !! 0
               = Some (text_of (table env_timeout) glucose_row))
    by (vm_compute; reflexivity).
  destruct (C7_embedding_failure_ends_the_run env_timeout ∅ 0 _
              (ResponseError "timed out") Hj eq_refl) as (Hr & Hexit & _).
  split; [exact Hr | exact Hexit].
Defined.

(** C8: the store does not answer, the collection is not created, and the
    process still exits with status 0. *)
Lemma C8_exit_zero_without_collection :
  exit_code (fst (run env_store_down ∅)) = 0
  /\ collections (snd (run env_store_down ∅)) !! COLLECTION_NAME = None
  /\ acked (snd (run env_store_down ∅)) = []
  /\ stdout (snd (run env_store_down ∅))
     = ["Could not create collection: Connection refused"].
Proof. repeat split; vm_compute; reflexivity. Qed.

Lemma C8_witness :
  qdrant_up env_store_down 0 = false
  /\ exit_code (fst (run env_store_down store_matching)) = 0
  /\ snd (run env_store_down store_matching) = refused_world store_matching.
Proof.
  split; [reflexivity|].
  exact (proj1 (proj2 (proj2 (C8_exit_status env_store_down store_matching)))
               eq_refl sample_parts_columns).
Defined.

Lemma C9_witness :
  exists part_lookup,
    create_part_lookup env_ok (boot ∅) = (Ok part_lookup, boot ∅)
    /\ part_lookup !! "Pt" = Some "Point in time (spot)".
Proof.
  apply (C9_last_duplicate_part_wins env_ok
           [part_row "Pt" "Point in time"; part_row "Bld" "Blood"]
           (part_row "Pt" "Point in time (spot)") []).
  - reflexivity.
  - exact sample_parts_columns.
  - vm_compute; reflexivity.
  - vm_compute; reflexivity.
  - constructor.
Defined.

(** The glucose row under a table that has an entry for its component. *)
Lemma C10_witness :
  has_columns LOINC_COLUMNS glucose_row
  /\ glucose_row !! "COMPONENT" = Some "Glucose"
  /\ fst (main_row env_ok (<["Glucose" := "Glucose part"]> (table env_ok)) 0
                   glucose_row (boot ∅))
     = Raise (KeyError "embedding").
Proof.
  assert (Hc : glucose_row !! "COMPONENT" = Some "Glucose")
    by (vm_compute; reflexivity).
  split; [exact glucose_row_columns|]. split; [exact Hc|].
  exact (proj2 (proj2 (C10_component_in_the_text_no_payload env_ok
                         (<["Glucose" := "Glucose part"]> (table env_ok)) 0
                         glucose_row (boot ∅) "Glucose"
                         glucose_row_columns Hc))
               _ eq_refl).
Defined.

(** * Further properties of the script *)

Section Further.

Context {float : Type}.

Implicit Types (w : @World float) (env : @Env float) (row : Row)
  (part_lookup : gmap string string) (p : @PointStruct float)
  (pts : list (@PointStruct float)) (cs : gmap string (@Collection float))
  (reqs : list (@Request float)).

(** ** Missing columns *)

(** X1. A first row that lacks one of the columns read before the embedding
    call ends the run with the [KeyError] of the first such column in
    reading order: no embedding is requested and nothing is upserted, but
    the collection has already been recreated and is left empty. *)
Theorem X1_missing_column_aborts_after_recreation env cs row rest k :
  loinc_csv env = row :: rest ->
  first_missing PRE_EMBEDDING_COLUMNS row = Some k ->
  Forall (has_columns PART_COLUMNS) (part_csv env) ->
  qdrant_up env 0 = true ->
  run env cs = (Raise (KeyError k), created_world cs)
  /\ embed_requests (snd (run env cs)) = []
  /\ acked (snd (run env cs)) = [Recreate COLLECTION_NAME VECTORS_CONFIG]
  /\ collections (snd (run env cs)) !! COLLECTION_NAME = Some fresh_collection.
Proof.
  intros Hcsv Hmiss Hparts Hup. apply first_bad_None in Hparts.
  assert (Hrun : run env cs = (Raise (KeyError k), created_world cs)).
  { rewrite run_outcome. unfold outcome. by rewrite Hparts, Hup, Hcsv, Hmiss. }
  rewrite Hrun. repeat split. apply recreated_lookup.
Qed.

(** X2. The LOINC_NUM column is read only after the embedding call, which
    never returns: for a first row that has the other columns but no
    LOINC_NUM, the embedding is requested all the same and the run ends
    with the exception of that call, [KeyError] 'embedding' when the
    service answered; the run is the one of the same table with the
    column. *)
Theorem X2_missing_loinc_num_goes_unnoticed env cs row rest :
  loinc_csv env = row :: rest ->
  has_columns PRE_EMBEDDING_COLUMNS row ->
  row !! "LOINC_NUM" = None ->
  Forall (has_columns PART_COLUMNS) (part_csv env) ->
  qdrant_up env 0 = true ->
  embed_requests (snd (run env cs)) = [text_of (table env) row]
  /\ acked (snd (run env cs)) = [Recreate COLLECTION_NAME VECTORS_CONFIG]
  /\ fst (run env cs) = Raise (embed_exn env 0 (text_of (table env) row))
  /\ (forall response,
        ollama_embed env 0 OLLAMA_MODEL (text_of (table env) row) = Ok response ->
        fst (run env cs) = Raise (KeyError "embedding"))
  /\ forall num,
       run (mkEnv (part_csv env) (<["LOINC_NUM" := num]> row :: rest)
                  (ollama_embed env) (qdrant_up env) (qdrant_normalize env)) cs
       = run env cs.
Proof.
  intros Hcsv Hcols Hnum Hparts Hup.
  apply first_bad_None in Hparts. pose proof Hcols as Hpre.
  apply first_missing_None in Hpre.
  assert (Hrun : run env cs
                 = (Raise (embed_exn env 0 (text_of (table env) row)),
                    embedded (text_of (table env) row) (created_world cs))).
  { rewrite run_outcome. unfold outcome. by rewrite Hparts, Hup, Hcsv, Hpre. }
  rewrite Hrun. split; [done|]. split; [done|]. split; [done|]. split.
  { intros response Hans. cbn [fst]. unfold embed_exn. by rewrite Hans. }
  intros num. rewrite run_outcome. unfold outcome, table, embed_exn.
  cbn [part_csv loinc_csv qdrant_up ollama_embed].
  rewrite Hparts, Hup.
  assert (Hsame : forall k, k ∈ LOINC_COLUMNS -> k ≠ "LOINC_NUM" ->
                            (<["LOINC_NUM" := num]> row : Row) !! k = row !! k).
  { intros k _ Hk. by apply lookup_insert_ne. }
  assert (Hpre' : first_missing PRE_EMBEDDING_COLUMNS (<["LOINC_NUM" := num]> row)
                  = None).
  { apply first_missing_None. unfold has_columns, PRE_EMBEDDING_COLUMNS in *.
    repeat (apply Forall_cons_1 in Hcols as [? Hcols]).
    repeat constructor; by rewrite lookup_insert_ne. }
  rewrite Hpre'.
  assert (Htext : text_of (part_table (part_csv env) ∅) (<["LOINC_NUM" := num]> row)
                  = text_of (part_table (part_csv env) ∅) row).
  { unfold text_of, resolved. by rewrite !lookup_total_insert_ne. }
  by rewrite Htext.
Qed.

(** X3. A part table whose header lacks PartName or PartNumber, so that its
    first row lacks the column, ends the run with the [KeyError] of the
    first missing column, PartName before PartNumber, before the vector
    store is contacted: no request is sent, the collections are untouched
    and nothing is printed. *)
Theorem X3_part_header_without_column_stops_before_store env cs row rest k :
  part_csv env = row :: rest ->
  first_missing PART_COLUMNS row = Some k ->
  run env cs = (Raise (KeyError k), boot cs)
  /\ collections (snd (run env cs)) = cs
  /\ qdrant_calls (snd (run env cs)) = 0
  /\ embed_requests (snd (run env cs)) = []
  /\ stdout (snd (run env cs)) = [].
Proof.
  intros Hcsv Hbad.
  assert (Hrun : run env cs = (Raise (KeyError k), boot cs)).
  { rewrite run_outcome. unfold outcome. rewrite Hcsv. cbn [first_bad].
    by rewrite Hbad. }
  by rewrite Hrun.
Qed.

(** ** Every run *)



(** X7. No run touches a collection other than 'loinc': whatever the
    outcome, every other collection of the store is after the run what it
    was before. *)
Theorem X7_other_collections_untouched env cs name :
  name ≠ COLLECTION_NAME ->
  collections (snd (run env cs)) !! name = cs !! name.
Proof.
  intros Hne.
  destruct (run_world env cs) as [->|[->|[->|[text ->]]]]; simpl;
    try done; by apply recreated_lookup_ne.
Qed.


(** ** What a row and the part table contribute *)

(** X10. [main] reads nothing of a row but its nine columns: two rows that
    agree on them are treated alike, whatever other columns they have, in
    the text, in the point, in the exception and in the effect on the
    world. *)
Theorem X10_only_nine_columns_are_read env part_lookup i row row' w :
  (forall k, k ∈ LOINC_COLUMNS -> row !! k = row' !! k) ->
  main_row env part_lookup i row w = main_row env part_lookup i row' w.
Proof.
  intros H. unfold LOINC_COLUMNS in H.
  pose proof (H "COMPONENT" ltac:(repeat constructor)) as H1.
  pose proof (H "PROPERTY" ltac:(repeat constructor)) as H2.
  pose proof (H "TIME_ASPCT" ltac:(repeat constructor)) as H3.
  pose proof (H "SYSTEM" ltac:(repeat constructor)) as H4.
  pose proof (H "SCALE_TYP" ltac:(repeat constructor)) as H5.
  pose proof (H "METHOD_TYP" ltac:(repeat constructor)) as H6.
  pose proof (H "LONG_COMMON_NAME" ltac:(repeat constructor)) as H7.
  pose proof (H "CLASS" ltac:(repeat constructor)) as H8.
  pose proof (H "LOINC_NUM" ltac:(repeat constructor)) as H9.
  unfold main_row, resolve, getitem.
  by rewrite H1, H2, H3, H4, H5, H6, H7, H8, H9.
Qed.

Lemma part_table_lookup_inv (rows : list Row) init number name :
  part_table rows init !! number = Some name ->
  init !! number = Some name
  \/ exists row, row ∈ rows /\ row !!! "PartNumber" = number
                 /\ row !!! "PartName" = name.
Proof.
  revert init. induction rows as [|row rows IH]; intros init; [by left|].
  rewrite part_table_cons. intros H.
  apply IH in H as [H|(r & Hr & Hn & Hv)].
  - apply lookup_insert_Some in H as [[<- <-]|[_ H]]; [|by left].
    right. exists row. split; [by left|done].
  - right. exists r. split; [by right|done].
Qed.

Lemma part_table_keeps_keys (rows : list Row) init number :
  is_Some (init !! number) -> is_Some (part_table rows init !! number).
Proof.
  revert init. induction rows as [|row rows IH]; intros init H; [done|].
  rewrite part_table_cons. apply IH, lookup_insert_is_Some'. by right.
Qed.

Lemma part_table_has_numbers (rows : list Row) init row :
  row ∈ rows -> is_Some (part_table rows init !! (row !!! "PartNumber")).
Proof.
  revert init. induction rows as [|r rows IH]; intros init Hrow.
  - by apply elem_of_nil in Hrow.
  - rewrite part_table_cons. apply elem_of_cons in Hrow as [->|Hrow].
    + apply part_table_keeps_keys. rewrite lookup_insert_eq. eauto.
    + by apply IH.
Qed.

Lemma part_table_size (rows : list Row) init :
  base.size (part_table rows init) <= base.size init + length rows.
Proof.
  revert init. induction rows as [|row rows IH]; intros init; [simpl; lia|].
  rewrite part_table_cons. specialize (IH (<[row !!! "PartNumber" :=
                                              row !!! "PartName"]> init)).
  rewrite map_size_insert in IH. simpl.
  destruct (init !! (row !!! "PartNumber")); simpl in IH; lia.
Qed.

(** X11. On a part table whose rows have both columns, [create_part_lookup]
    returns a table whose keys are exactly the PartNumbers of the file and
    whose every entry is the PartName of a row with that PartNumber; it has
    at most as many entries as the file has rows. *)
Theorem X11_lookup_table_holds_the_part_numbers env w :
  Forall (has_columns PART_COLUMNS) (part_csv env) ->
  exists part_lookup,
    create_part_lookup env w = (Ok part_lookup, w)
    /\ (forall number,
          is_Some (part_lookup !! number)
          <-> exists row, row ∈ part_csv env
                          /\ row !! "PartNumber" = Some number)
    /\ (forall number name,
          part_lookup !! number = Some name ->
          exists row, row ∈ part_csv env
                      /\ row !! "PartNumber" = Some number
                      /\ row !! "PartName" = Some name)
    /\ base.size part_lookup <= length (part_csv env).
Proof.
  intros Hparts. exists (table env).
  split; [by apply create_part_lookup_complete|].
  assert (Hcols : forall row k, row ∈ part_csv env -> k ∈ PART_COLUMNS ->
                                row !! k = Some (row !!! k)).
  { intros row k Hrow Hk. rewrite Forall_forall in Hparts.
    exact (has_columns_lookup PART_COLUMNS row k (Hparts row Hrow) Hk). }
  assert (Hinv : forall number name,
            table env !! number = Some name ->
            exists row, row ∈ part_csv env
                        /\ row !! "PartNumber" = Some number
                        /\ row !! "PartName" = Some name).
  { intros number name H.
    apply part_table_lookup_inv in H as [H|(row & Hrow & <- & <-)];
      [by rewrite lookup_empty in H|].
    exists row. split; [done|].
    split; apply Hcols; try done; unfold PART_COLUMNS; repeat constructor. }
  split; [|split; [exact Hinv|]].
  - intros number. split.
    + intros [name H]. destruct (Hinv _ _ H) as (row & Hrow & Hn & _). eauto.
    + intros (row & Hrow & Hn).
      rewrite <- (lookup_total_Some _ _ _ Hn).
      by apply part_table_has_numbers.
  - pose proof (part_table_size (part_csv env) ∅) as H.
    rewrite map_size_empty in H. exact H.
Qed.


(** X14. Run on an empty table, the script still recreates the collection:
    it returns after that one request, sends no upsert, prints only the
    line of the creation and leaves the collection empty. *)
Theorem X14_empty_table_leaves_empty_collection env cs :
  loinc_csv env = [] ->
  Forall (has_columns PART_COLUMNS) (part_csv env) ->
  qdrant_up env 0 = true ->
  run env cs = (Ok tt, created_world cs)
  /\ collections (created_world cs) !! COLLECTION_NAME = Some fresh_collection
  /\ acked (created_world cs) = [Recreate COLLECTION_NAME VECTORS_CONFIG].
Proof.
  intros Hcsv Hparts Hup. split; [|split; [apply recreated_lookup|done]].
  apply first_bad_None in Hparts.
  rewrite run_outcome. unfold outcome. by rewrite Hparts, Hup, Hcsv.
Qed.

(** ** The embedding call *)

(** X24. [get_embedding] never returns a vector.  It sends one request to
    the embedding service; when the service raises, that exception
    escapes; when the service answers, the subscript 'embedding' of the
    answer raises [KeyError], because the answer carries its vectors under
    'embeddings'. *)
Theorem X24_get_embedding_never_returns env text w :
  snd (get_embedding env text w) = embedded text w
  /\ (forall response,
        ollama_embed env (length (embed_requests w)) OLLAMA_MODEL text
        = Ok response ->
        fst (get_embedding env text w) = Raise (KeyError "embedding")
        /\ response_getitem response "embeddings"
           = Ok (Vectors (embeddings response)))
  /\ (forall e,
        ollama_embed env (length (embed_requests w)) OLLAMA_MODEL text
        = Raise e ->
        fst (get_embedding env text w) = Raise e)
  /\ forall v, fst (get_embedding env text w) ≠ Ok v.
Proof.
  rewrite get_embedding_raises. cbn [fst snd]. unfold embed_exn.
  split; [done|]. split; [|split].
  - intros response ->. by split.
  - by intros e ->.
  - done.
Qed.

(** X25. A run sends at most one request to the embedding service and at
    most one to the vector store, and it upserts nothing.  It returns only
    when the table is empty or the collection could not be created; with a
    row in the table and the collection created it ends with an exception
    on the first row. *)
Theorem X25_a_run_stops_at_the_first_row env cs :
  length (embed_requests (snd (run env cs))) <= 1
  /\ qdrant_calls (snd (run env cs)) <= 1
  /\ upserted (acked (snd (run env cs))) = []
  /\ (fst (run env cs) = Ok tt ->
      loinc_csv env = [] \/ qdrant_up env 0 = false)
  /\ (forall row rest,
        loinc_csv env = row :: rest ->
        Forall (has_columns PART_COLUMNS) (part_csv env) ->
        qdrant_up env 0 = true ->
        exists e, fst (run env cs) = Raise e
                  /\ collections (snd (run env cs)) !! COLLECTION_NAME
                     = Some fresh_collection).
Proof.
  split; [|split; [|split; [|split]]].
  - destruct (run_world env cs) as [->|[->|[->|[text ->]]]]; simpl; lia.
  - destruct (run_world env cs) as [->|[->|[->|[text ->]]]]; simpl; lia.
  - by destruct (run_world env cs) as [->|[->|[->|[text ->]]]].
  - rewrite run_outcome. unfold outcome.
    destruct (first_bad _ _); [done|].
    destruct (qdrant_up env 0); [|by right].
    destruct (loinc_csv env) as [|row rest]; [by left|].
    by destruct (first_missing _ _).
  - intros row rest Hcsv Hparts Hup. apply first_bad_None in Hparts.
    rewrite run_outcome. unfold outcome. rewrite Hparts, Hup, Hcsv.
    destruct (first_missing _ _); eexists; (split; [done|]);
      apply recreated_lookup.
Qed.

End Further.

(** * Concrete runs for the further properties *)

Lemma X1_witness :
  first_missing PRE_EMBEDDING_COLUMNS (delete "SYSTEM" glucose_row)
  = Some "SYSTEM"
  /\ run env_no_system store_matching
     = (Raise (KeyError "SYSTEM"), created_world store_matching).
Proof.
  assert (Hmiss : first_missing PRE_EMBEDDING_COLUMNS (delete "SYSTEM" glucose_row)
                  = Some "SYSTEM") by (vm_compute; reflexivity).
  split; [exact Hmiss|].
  exact (proj1 (X1_missing_column_aborts_after_recreation env_no_system
                  store_matching _ _ "SYSTEM" eq_refl Hmiss
                  sample_parts_columns eq_refl)).
Defined.

Lemma X2_witness :
  delete "LOINC_NUM" glucose_row !! "LOINC_NUM" = None
  /\ embed_requests (snd (run env_no_loinc_num ∅))
     = [text_of (table env_no_loinc_num) (delete "LOINC_NUM" glucose_row)]
  /\ fst (run env_no_loinc_num ∅) = Raise (KeyError "embedding").
Proof.
  assert (Hcols : has_columns PRE_EMBEDDING_COLUMNS
                    (delete "LOINC_NUM" glucose_row))
    by (apply (bool_decide_unpack _); vm_compute; exact I).
  assert (Hnum : delete "LOINC_NUM" glucose_row !! "LOINC_NUM" = None)
    by (vm_compute; reflexivity).
  split; [exact Hnum|].
  destruct (X2_missing_loinc_num_goes_unnoticed env_no_loinc_num ∅
              _ _ eq_refl Hcols Hnum sample_parts_columns eq_refl)
    as (H1 & _ & _ & H2 & _).
  split; [exact H1 | exact (H2 _ eq_refl)].
Defined.

Lemma X3_witness :
  run env_bad_parts store_matching
  = (Raise (KeyError "PartName"), boot store_matching).
Proof.
  assert (Hbad : first_missing PART_COLUMNS
                   (delete "PartName" (part_row "Pt" "Point in time"))
                 = Some "PartName") by (vm_compute; reflexivity).
  exact (proj1 (X3_part_header_without_column_stops_before_store env_bad_parts
                  store_matching _ _ "PartName" eq_refl Hbad)).
Defined.


Lemma X7_witness :
  collections (snd (run env_ok store_with_other)) !! "notes"
  = store_with_other !! "notes".
Proof.
  apply (X7_other_collections_untouched env_ok store_with_other "notes").
  vm_compute. discriminate.
Defined.

Lemma X10_witness :
  main_row env_ok (table env_ok) 0 (<["STATUS" := "ACTIVE"]> glucose_row) (boot ∅)
  = main_row env_ok (table env_ok) 0 glucose_row (boot ∅).
Proof.
  apply X10_only_nine_columns_are_read.
  intros k Hk. apply lookup_insert_ne. intros <-.
  revert Hk. apply (bool_decide_unpack _). vm_compute. exact I.
Defined.

Lemma X11_witness :
  exists part_lookup,
    create_part_lookup env_ok (boot ∅) = (Ok part_lookup, boot ∅)
    /\ base.size part_lookup <= 3.
Proof.
  destruct (X11_lookup_table_holds_the_part_numbers env_ok (boot ∅)
              sample_parts_columns) as (part_lookup & Hrun & _ & _ & Hsize).
  exists part_lookup. split; [exact Hrun | exact Hsize].
Defined.


Lemma X14_witness :
  run env_no_rows store_matching = (Ok tt, created_world store_matching).
Proof.
  exact (proj1 (X14_empty_table_leaves_empty_collection env_no_rows
                  store_matching eq_refl sample_parts_columns eq_refl)).
Defined.

Lemma X24_witness :
  fst (get_embedding env_ok "Glucose" (boot ∅)) = Raise (KeyError "embedding")
  /\ fst (get_embedding env_timeout "Glucose" (boot ∅))
     = Raise (ResponseError "timed out").
Proof.
  split.
  - exact (proj1 (proj1 (proj2 (X24_get_embedding_never_returns env_ok
                                  "Glucose" (boot ∅))) _ eq_refl)).
  - exact (proj1 (proj2 (proj2 (X24_get_embedding_never_returns env_timeout
                                  "Glucose" (boot ∅)))) _ eq_refl).
Defined.

Lemma X25_witness :
  exists e, fst (run env_ok store_matching) = Raise e
            /\ collections (snd (run env_ok store_matching)) !! COLLECTION_NAME
               = Some fresh_collection.
Proof.
  exact (proj2 (proj2 (proj2 (proj2 (X25_a_run_stops_at_the_first_row env_ok
                                       store_matching))))
               glucose_row [hemoglobin_row; culture_row] eq_refl
               sample_parts_columns eq_refl).
Defined.

(** * Properties of [generate_loinc_docs.py] *)

Lemma chunk_of_row_short (row : list string) :
  length row < 13 -> chunk_of_row row = None.
Proof.
  intros H.
  do 13 (destruct row as [|? row]; [reflexivity|]).
  simpl in H. lia.
Qed.

Lemma chunk_of_row_long (row : list string) :
  13 <= length row ->
  exists code content,
    row !! 0 = Some code
    /\ chunk_of_row row = Some (chunk_path code, content).
Proof.
  intros H.
  do 13 (destruct row as [|? row]; [simpl in H; lia|]).
  eexists _, _. split; reflexivity.
Qed.

Lemma chunk_of_row_path (row : list string) path content :
  chunk_of_row row = Some (path, content) ->
  exists code, row !! 0 = Some code /\ path = chunk_path code.
Proof.
  intros Hchunk. destruct (decide (13 <= length row)) as [Hlong|Hshort].
  - destruct (chunk_of_row_long row Hlong) as (code & c & Hcode & Hc).
    rewrite Hc in Hchunk. injection Hchunk as <- _. eauto.
  - rewrite chunk_of_row_short in Hchunk by lia. discriminate.
Qed.

Lemma docs_written_app realpath rows1 rows2 files :
  docs_written realpath (rows1 ++ rows2) files
  = docs_written realpath rows2 (docs_written realpath rows1 files).
Proof. unfold docs_written. apply foldl_app. Qed.

Lemma docs_written_cons realpath row rows files :
  docs_written realpath (row :: rows) files
  = docs_written realpath rows
      (match chunk_of_row row with
       | Some (path, content) => <[realpath path := content]> files
       | None => files
       end).
Proof. reflexivity. Qed.

Lemma generate_docs_complete realpath writable rows files :
  Forall (fun row => 13 <= length row) rows ->
  (forall row path content,
     row ∈ rows -> chunk_of_row row = Some (path, content) ->
     writable path = true) ->
  generate_docs realpath writable rows files
  = (None, docs_written realpath rows files).
Proof.
  intros Hlong. revert files.
  induction Hlong as [|row rows Hrow _ IH]; intros files Hw; [done|].
  destruct (chunk_of_row_long row Hrow) as (code & content & _ & Hchunk).
  cbn [generate_docs]. rewrite docs_written_cons, Hchunk.
  rewrite (Hw row _ _ ltac:(by left) Hchunk).
  apply IH. intros r p c Hr. apply Hw. by right.
Qed.

Lemma docs_written_other realpath rows files location :
  (forall row code, row ∈ rows -> row !! 0 = Some code ->
                    location ≠ realpath (chunk_path code)) ->
  docs_written realpath rows files !! location = files !! location.
Proof.
  revert files. induction rows as [|row rows IH]; intros files H; [done|].
  rewrite docs_written_cons.
  rewrite IH by (intros r c Hr; apply H; by right).
  destruct (chunk_of_row row) as [[p c]|] eqn:Hchunk; [|done].
  apply chunk_of_row_path in Hchunk as (code & Hcode & ->).
  apply lookup_insert_ne. intros Heq.
  by apply (H row code ltac:(by left) Hcode).
Qed.

(** X15. When every row has at least 13 fields and every file can be
    opened, the script ends without an exception and the file that the
    path of a code names holds the document of the last row whose path
    names that file: a later row of the same file, under the same code or
    under another spelling of the path, overwrites the document of an
    earlier one. *)
Theorem X15_last_row_of_a_file_writes_it
    realpath writable before (row : list string) after files code :
  Forall (fun r => 13 <= length r) (before ++ row :: after) ->
  (forall r path content,
     r ∈ before ++ row :: after -> chunk_of_row r = Some (path, content) ->
     writable path = true) ->
  row !! 0 = Some code ->
  Forall (fun r => forall c, r !! 0 = Some c ->
                     realpath (chunk_path c) ≠ realpath (chunk_path code))
         after ->
  fst (generate_docs realpath writable (before ++ row :: after) files) = None
  /\ exists content,
       chunk_of_row row = Some (chunk_path code, content)
       /\ snd (generate_docs realpath writable (before ++ row :: after) files)
            !! realpath (chunk_path code) = Some content.
Proof.
  intros Hlong Hw Hcode Hafter.
  rewrite (generate_docs_complete _ _ _ _ Hlong Hw). split; [done|].
  pose proof Hlong as Hrow. apply Forall_app in Hrow as [_ Hrow].
  apply Forall_cons_1 in Hrow as [Hrow _].
  destruct (chunk_of_row_long row Hrow) as (code' & content & Hcode' & Hchunk).
  assert (code' = code) as -> by congruence.
  exists content. split; [done|]. cbn [snd].
  rewrite docs_written_app, docs_written_cons, Hchunk.
  rewrite docs_written_other; [apply lookup_insert_eq|].
  intros r c Hr Hc Heq.
  rewrite Forall_forall in Hafter. by apply (Hafter r Hr c Hc).
Qed.

(** X16. A row with fewer than 13 fields, an empty line for one, ends the
    script with [IndexError]: the files of the rows before it are written,
    no file is written for it or for any row after it. *)
Theorem X16_short_row_stops_the_script
    realpath writable good (bad : list string) rest files :
  Forall (fun r => 13 <= length r) good ->
  (forall r path content,
     r ∈ good -> chunk_of_row r = Some (path, content) ->
     writable path = true) ->
  length bad < 13 ->
  generate_docs realpath writable (good ++ bad :: rest) files
  = (Some IndexError, snd (generate_docs realpath writable good files)).
Proof.
  intros Hlong Hw Hshort.
  rewrite (generate_docs_complete _ _ _ _ Hlong Hw). cbn [snd].
  revert files Hw.
  induction Hlong as [|row rows Hrow _ IH]; intros files Hw.
  - cbn [app generate_docs]. by rewrite (chunk_of_row_short _ Hshort).
  - destruct (chunk_of_row_long row Hrow) as (code & content & _ & Hchunk).
    cbn [app generate_docs]. rewrite docs_written_cons, Hchunk.
    rewrite (Hw row _ _ ltac:(by left) Hchunk).
    apply IH. intros r p c Hr. apply Hw. by right.
Qed.

(** X17. The document of a row depends only on the fields at positions 0
    to 7 and 9 to 12: the field at position 8 and the fields from position
    13 on are never read. *)
Theorem X17_only_twelve_positions_are_read (row row' : list string) :
  (forall k, k ∈ DOC_POSITIONS -> row !! k = row' !! k) ->
  chunk_of_row row = chunk_of_row row'.
Proof.
  intros H. unfold DOC_POSITIONS in H. unfold chunk_of_row.
  rewrite (H 0 ltac:(repeat constructor)), (H 1 ltac:(repeat constructor)),
    (H 2 ltac:(repeat constructor)), (H 3 ltac:(repeat constructor)),
    (H 4 ltac:(repeat constructor)), (H 5 ltac:(repeat constructor)),
    (H 6 ltac:(repeat constructor)), (H 7 ltac:(repeat constructor)),
    (H 9 ltac:(repeat constructor)), (H 10 ltac:(repeat constructor)),
    (H 11 ltac:(repeat constructor)), (H 12 ltac:(repeat constructor)).
  reflexivity.
Qed.

(** X18. A run of the script, however it ends, changes no file but those
    that the paths of the codes of its rows name. *)
Theorem X18_only_the_files_of_the_rows_change
    realpath writable rows files location :
  (forall row code, row ∈ rows -> row !! 0 = Some code ->
                    location ≠ realpath (chunk_path code)) ->
  snd (generate_docs realpath writable rows files) !! location
  = files !! location.
Proof.
  intros H.
  revert files. induction rows as [|row rows IH]; intros files; [done|].
  cbn [generate_docs].
  destruct (chunk_of_row row) as [[p c]|] eqn:Hchunk; [|done].
  destruct (writable p); [|done].
  rewrite IH by (intros r k Hr; apply H; by right).
  apply chunk_of_row_path in Hchunk as (code & Hcode & ->).
  apply lookup_insert_ne. intros Heq.
  by apply (H row code ltac:(by left) Hcode).
Qed.

(** The code of the last row is that of the first one with "./" in
    front: the two paths name one file, which ends with the document of
    the last row. *)
Lemma X15_witness :
  drop_dot_segments (chunk_path "./2345-7") = chunk_path "2345-7"
  /\ fst (generate_docs drop_dot_segments all_writable
            ([sample_doc_row] ++ dotted_doc_row :: [sample_doc_row_2]) ∅) = None
  /\ exists content,
       chunk_of_row dotted_doc_row = Some (chunk_path "./2345-7", content)
       /\ snd (generate_docs drop_dot_segments all_writable
                 ([sample_doc_row] ++ dotted_doc_row :: [sample_doc_row_2]) ∅)
            !! drop_dot_segments (chunk_path "./2345-7") = Some content.
Proof.
  split; [vm_compute; reflexivity|].
  apply (X15_last_row_of_a_file_writes_it drop_dot_segments all_writable
           [sample_doc_row] dotted_doc_row [sample_doc_row_2] ∅ "./2345-7").
  - apply (bool_decide_unpack _). vm_compute. exact I.
  - reflexivity.
  - reflexivity.
  - constructor; [|constructor].
    intros c [= <-]. vm_compute. discriminate.
Defined.

Lemma X16_witness :
  generate_docs drop_dot_segments all_writable
    ([sample_doc_row] ++ [] :: [sample_doc_row_2]) ∅
  = (Some IndexError,
     snd (generate_docs drop_dot_segments all_writable [sample_doc_row] ∅)).
Proof.
  apply (X16_short_row_stops_the_script drop_dot_segments all_writable
           [sample_doc_row] [] [sample_doc_row_2] ∅).
  - apply (bool_decide_unpack _). vm_compute. exact I.
  - reflexivity.
  - simpl. lia.
Defined.

Lemma X17_witness :
  chunk_of_row (<[8 := "2.80"]> sample_doc_row ++ ["extra"; "fields"])
  = chunk_of_row sample_doc_row.
Proof.
  apply X17_only_twelve_positions_are_read.
  intros k Hk. unfold DOC_POSITIONS in Hk.
  repeat (apply elem_of_cons in Hk as [->|Hk]; [reflexivity|]).
  by apply elem_of_nil in Hk.
Defined.

Lemma X18_witness :
  snd (generate_docs drop_dot_segments all_writable
         [sample_doc_row; dotted_doc_row; short_doc_row]
         {[ "/etc/hosts" := "localhost" ]}) !! "/etc/hosts"
  = Some "localhost".
Proof.
  assert (H : forall row code,
            row ∈ [sample_doc_row; dotted_doc_row; short_doc_row] ->
            row !! 0 = Some code ->
            "/etc/hosts" ≠ drop_dot_segments (chunk_path code)).
  { intros row code Hrow.
    repeat (apply elem_of_cons in Hrow as [->|Hrow];
            [intros [= <-]; vm_compute; discriminate|]).
    by apply elem_of_nil in Hrow. }
  rewrite (X18_only_the_files_of_the_rows_change drop_dot_segments all_writable
             [sample_doc_row; dotted_doc_row; short_doc_row]
             {[ "/etc/hosts" := "localhost" ]} "/etc/hosts" H).
  reflexivity.
Defined.

(** * Properties of the index of [LoincTools] *)

Section LoincToolsFacts.

Variable strip : string -> string.
Variable stem : string -> string.

Implicit Types (fs : FileSystem) (index : gmap string (list string))
  (rows : list Row) (row : Row).

Lemma index_add_eq csv_file code index :
  index_add csv_file code index
  = if truthy code then
      if bool_decide (csv_file ∈ default [] (index !! code)) then index
      else <[code := default [] (index !! code) ++ [csv_file]]> index
    else index.
Proof.
  unfold index_add. destruct (truthy code); [|done].
  destruct (index !! code) as [files|] eqn:Hcode; simpl.
  - by rewrite Hcode.
  - rewrite lookup_insert_eq. simpl. by rewrite insert_insert_eq.
Qed.

Lemma index_add_sound Q csv_file code index :
  Q code csv_file ->
  index_sound Q index -> index_sound Q (index_add csv_file code index).
Proof.
  intros HQ Hs. rewrite index_add_eq.
  destruct (truthy code) eqn:Hcode; [|done].
  case_bool_decide as Hin; [done|].
  intros c files Hc. apply lookup_insert_Some in Hc as [[<- <-]|[_ Hc]];
    [|by apply Hs].
  split; [done|]. destruct (index !! code) as [old|] eqn:Hold; simpl in *.
  - destruct (Hs _ _ Hold) as (_ & Hnd & _ & Hall).
    split.
    { apply NoDup_app. split; [done|]. split; [|apply NoDup_singleton].
      intros f Hf Hf'. apply list_elem_of_singleton in Hf' as ->. done. }
    split; [by destruct old|].
    intros f [Hf|Hf]%elem_of_app; [by apply Hall|].
    by apply list_elem_of_singleton in Hf as ->.
  - split; [apply NoDup_singleton|]. split; [done|].
    intros f Hf. by apply list_elem_of_singleton in Hf as ->.
Qed.

Lemma index_rows_sound Q csv_file rows index :
  (forall row code, row ∈ rows -> code_of_row strip row = Some code ->
                    Q code csv_file) ->
  index_sound Q index -> index_sound Q (index_rows strip csv_file rows index).
Proof.
  revert index. induction rows as [|row rows IH]; intros index HQ Hs; [done|].
  unfold index_rows. cbn [foldl]. fold (index_rows strip csv_file rows).
  apply IH; [intros r c Hr; apply HQ; by right|].
  destruct (code_of_row strip row) as [code|] eqn:Hcode; [|done].
  apply index_add_sound; [|done]. apply (HQ row); [by left|done].
Qed.

Lemma index_add_keeps csv_file code index c f :
  indexed index c f -> indexed (index_add csv_file code index) c f.
Proof.
  intros (files & Hc & Hf). rewrite index_add_eq.
  destruct (truthy code); [|by exists files].
  case_bool_decide as Hin; [by exists files|].
  destruct (decide (code = c)) as [->|Hne].
  - rewrite Hc. simpl. exists (files ++ [csv_file]).
    split; [apply lookup_insert_eq|]. apply elem_of_app. by left.
  - exists files. split; [by rewrite lookup_insert_ne|done].
Qed.

Lemma index_add_adds csv_file code index :
  truthy code = true -> indexed (index_add csv_file code index) code csv_file.
Proof.
  intros Hcode. rewrite index_add_eq, Hcode.
  case_bool_decide as Hin.
  - destruct (index !! code) as [files|] eqn:Hc; simpl in Hin.
    + by exists files.
    + by apply elem_of_nil in Hin.
  - eexists. split; [apply lookup_insert_eq|].
    apply elem_of_app. right. by apply list_elem_of_singleton.
Qed.

Lemma index_rows_keeps csv_file rows index c f :
  indexed index c f -> indexed (index_rows strip csv_file rows index) c f.
Proof.
  revert index. induction rows as [|row rows IH]; intros index H; [done|].
  unfold index_rows. cbn [foldl]. fold (index_rows strip csv_file rows).
  apply IH. destruct (code_of_row strip row); [|done].
  by apply index_add_keeps.
Qed.

Lemma index_rows_adds csv_file rows index row code :
  row ∈ rows ->
  code_of_row strip row = Some code ->
  truthy code = true ->
  indexed (index_rows strip csv_file rows index) code csv_file.
Proof.
  revert index. induction rows as [|r rows IH]; intros index Hrow Hcode Ht.
  - by apply elem_of_nil in Hrow.
  - unfold index_rows. cbn [foldl]. fold (index_rows strip csv_file rows).
    apply elem_of_cons in Hrow as [<-|Hrow]; [|by apply IH].
    rewrite Hcode. apply index_rows_keeps. by apply index_add_adds.
Qed.

Lemma index_file_index fs csv_file st :
  fst (index_file strip fs csv_file st)
  = index_rows strip csv_file (take 100 (fst (read_csv fs csv_file))) (fst st).
Proof.
  unfold index_file. destruct (read_csv fs csv_file) as [rows [e|]]; simpl;
    [|done].
  by destruct (Nat.leb _ _).
Qed.

Lemma elem_of_take_100 rows row :
  row ∈ take 100 rows -> exists i, i < 100 /\ rows !! i = Some row.
Proof.
  intros [i Hi]%list_elem_of_lookup.
  apply lookup_take_Some in Hi as [Hi Hlt]. eauto.
Qed.

Lemma index_files_sound fs (all files : list string) st :
  (forall f, f ∈ files -> f ∈ all) ->
  index_sound (fun code f => f ∈ all /\ sampled_in strip fs f code) (fst st) ->
  index_sound (fun code f => f ∈ all /\ sampled_in strip fs f code)
    (fst (foldl (fun st f => index_file strip fs f st) st files)).
Proof.
  revert st. induction files as [|f files IH]; intros st Hall Hs; [done|].
  cbn [foldl]. apply IH; [intros g Hg; apply Hall; by right|].
  rewrite index_file_index. apply index_rows_sound; [|done].
  intros row code Hrow Hcode. split; [apply Hall; by left|].
  apply elem_of_take_100 in Hrow as (i & Hi & Hrow). by exists i, row.
Qed.

Lemma index_files_keeps fs (files : list string) st c f :
  indexed (fst st) c f ->
  indexed (fst (foldl (fun st f => index_file strip fs f st) st files)) c f.
Proof.
  revert st. induction files as [|g files IH]; intros st H; [done|].
  cbn [foldl]. apply IH. rewrite index_file_index. by apply index_rows_keeps.
Qed.

Lemma index_files_adds fs (files : list string) st f code :
  f ∈ files ->
  sampled_in strip fs f code ->
  truthy code = true ->
  indexed (fst (foldl (fun st f => index_file strip fs f st) st files)) code f.
Proof.
  revert st. induction files as [|g files IH]; intros st Hf Hs Ht.
  - by apply elem_of_nil in Hf.
  - cbn [foldl]. apply elem_of_cons in Hf as [<-|Hf]; [|by apply IH].
    apply index_files_keeps. rewrite index_file_index.
    destruct Hs as (i & row & Hi & Hrow & Hcode).
    apply (index_rows_adds _ _ _ row); [|done..].
    apply list_elem_of_lookup. exists i. by apply lookup_take_Some.
Qed.

Lemma CollectCSVs_index fs loincfolder self :
  exists out,
    fst (CollectCSVs strip fs loincfolder self)
    = fst (foldl (fun st f => index_file strip fs f st) (∅, out)
                 (glob_csv fs loincfolder))
    /\ csv_index (snd (CollectCSVs strip fs loincfolder self))
       = fst (CollectCSVs strip fs loincfolder self).
Proof.
  unfold CollectCSVs. eexists.
  destruct (foldl _ _ _) as [index out] eqn:Hfold. simpl.
  split; [|done]. by rewrite Hfold.
Qed.

Lemma truthy_true s : truthy s = true <-> s ≠ "".
Proof.
  unfold truthy. destruct (String.eqb_spec s ""); simpl; split; congruence.
Qed.

Lemma CollectCSVs_sound fs loincfolder self :
  index_sound (fun code f => f ∈ glob_csv fs loincfolder
                             /\ sampled_in strip fs f code)
    (fst (CollectCSVs strip fs loincfolder self)).
Proof.
  destruct (CollectCSVs_index fs loincfolder self) as (out & -> & _).
  apply (index_files_sound fs (glob_csv fs loincfolder)
           (glob_csv fs loincfolder) (∅, out) (fun f H => H)).
  intros c l H. simpl in H. by rewrite lookup_empty in H.
Qed.

(** X19. Every entry of the index [CollectCSVs] builds is sound: the code
    is not empty, its list of files is not empty and names no file twice,
    and each of these files was found by [glob] and has, among its first
    100 rows, a row whose first non-empty code column holds that code.  The
    index is also what [self.csv_index] is set to. *)
Theorem X19_index_entries_are_backed_by_rows fs loincfolder self code files :
  fst (CollectCSVs strip fs loincfolder self) !! code = Some files ->
  code ≠ "" /\ NoDup files /\ files ≠ []
  /\ (forall f, f ∈ files ->
        f ∈ glob_csv fs loincfolder /\ sampled_in strip fs f code)
  /\ csv_index (snd (CollectCSVs strip fs loincfolder self))
     = fst (CollectCSVs strip fs loincfolder self).
Proof.
  intros Hcode.
  destruct (CollectCSVs_sound fs loincfolder self _ _ Hcode)
    as (Ht & Hnd & Hne & Hall).
  split; [by apply truthy_true|]. split; [done|]. split; [done|].
  split; [done|].
  by destruct (CollectCSVs_index fs loincfolder self) as (out & _ & H).
Qed.

(** X20. The index is complete for the rows that are sampled: a file found
    by [glob] is listed under every non-empty code that one of its first
    100 rows carries in its first non-empty code column. *)
Theorem X20_first_hundred_rows_are_indexed fs loincfolder self f code :
  f ∈ glob_csv fs loincfolder ->
  sampled_in strip fs f code ->
  code ≠ "" ->
  indexed (fst (CollectCSVs strip fs loincfolder self)) code f.
Proof.
  intros Hf Hs Hne.
  destruct (CollectCSVs_index fs loincfolder self) as (out & -> & _).
  apply index_files_adds; [done..|]. by apply truthy_true.
Qed.

Lemma collect_rows_other fs loinc csv_file st name :
  stem csv_file ≠ name ->
  fst (collect_rows strip stem fs loinc csv_file st) !! name = fst st !! name.
Proof.
  intros Hne. unfold collect_rows.
  destruct (read_csv fs csv_file) as [rows [e|]]; [done|].
  destruct (filter _ rows); [done|]. simpl. by apply lookup_insert_ne.
Qed.

Lemma collect_rows_fold_other fs loinc (files : list string) st name :
  Forall (fun g => stem g ≠ name) files ->
  fst (foldl (fun st f => collect_rows strip stem fs loinc f st) st files)
    !! name = fst st !! name.
Proof.
  intros H. revert st. induction H as [|g files Hg _ IH]; intros st; [done|].
  cbn [foldl]. by rewrite IH, collect_rows_other.
Qed.

Lemma collect_rows_fold_sound fs loinc (all files : list string) st :
  (forall f, f ∈ files -> f ∈ all) ->
  (forall name rows, fst st !! name = Some rows ->
     exists f, f ∈ all /\ stem f = name /\ rows_of_file strip fs loinc f rows) ->
  forall name rows,
    fst (foldl (fun st f => collect_rows strip stem fs loinc f st) st files)
      !! name = Some rows ->
    exists f, f ∈ all /\ stem f = name /\ rows_of_file strip fs loinc f rows.
Proof.
  revert st. induction files as [|g files IH]; intros st Hall Hs; [done|].
  cbn [foldl]. apply IH; [intros f Hf; apply Hall; by right|].
  intros name rows. unfold collect_rows.
  destruct (read_csv fs g) as [all_rows [e|]] eqn:Hread; [apply Hs|].
  destruct (filter _ all_rows) as [|r found] eqn:Hfound; [apply Hs|].
  simpl. intros H. apply lookup_insert_Some in H as [[<- <-]|[_ H]];
    [|by apply Hs].
  exists g. split; [apply Hall; by left|]. split; [done|].
  unfold rows_of_file. rewrite Hread. simpl. by rewrite Hfound.
Qed.

(** X21. [GetCsvRowsAsJson] finds nothing beyond the sample of the index:
    called on a fresh object, for a code that no file carries among its
    first 100 rows, it returns the empty result and reports the code as not
    found, whatever rows with that code the files hold further down. *)
Theorem X21_rows_past_the_sample_are_not_found fs loincfolder loinc self :
  csv_index self = ∅ ->
  (forall f, f ∈ glob_csv fs loincfolder -> ~ sampled_in strip fs f loinc) ->
  fst (GetCsvRowsAsJson strip stem fs loincfolder loinc self) = ∅
  /\ last (printed (snd (GetCsvRowsAsJson strip stem fs loincfolder loinc self)))
     = Some ("LOINC code " +:+ loinc +:+ " not found in index").
Proof.
  intros Hempty Hnone. unfold GetCsvRowsAsJson.
  rewrite bool_decide_eq_true_2 by done.
  destruct (CollectCSVs_index fs loincfolder self) as (out & _ & ->).
  destruct (fst (CollectCSVs strip fs loincfolder self) !! loinc)
    as [files|] eqn:Hcode.
  - destruct (CollectCSVs_sound fs loincfolder self _ _ Hcode)
      as (_ & _ & Hne & Hall).
    destruct files as [|f files]; [done|].
    destruct (Hall f ltac:(by left)) as [Hf Hs]. by destruct (Hnone f Hf).
  - simpl. split; [done|]. by rewrite last_snoc.
Qed.

(** X22. Whatever [GetCsvRowsAsJson] returns under a name is the non-empty
    list of the rows, in file order, that carry the code in one of the four
    code columns, of a file of that stem which is listed in the index under
    the code and was read to its end without an exception. *)
Theorem X22_returned_rows_carry_the_code fs loincfolder loinc self name rows :
  fst (GetCsvRowsAsJson strip stem fs loincfolder loinc self) !! name
  = Some rows ->
  rows ≠ []
  /\ Forall (fun row => row_matches strip loinc row = true) rows
  /\ exists f,
       stem f = name
       /\ indexed (csv_index (snd (GetCsvRowsAsJson strip stem fs loincfolder
                                     loinc self))) loinc f
       /\ snd (read_csv fs f) = None
       /\ rows = filter (fun row => row_matches strip loinc row = true)
                        (fst (read_csv fs f)).
Proof.
  unfold GetCsvRowsAsJson.
  set (self' := if bool_decide (csv_index self = ∅)
                then snd (CollectCSVs strip fs loincfolder self) else self).
  destruct (csv_index self' !! loinc) as [files|] eqn:Hcode;
    [|simpl; by rewrite lookup_empty].
  destruct (foldl _ _ files) as [result out] eqn:Hfold. simpl. intros Hname.
  assert (Hres : result = fst (foldl (fun st f =>
                   collect_rows strip stem fs loinc f st)
                   (∅, printed self') files)) by (by rewrite Hfold).
  rewrite Hres in Hname.
  destruct (collect_rows_fold_sound fs loinc files files (∅, printed self')
              (fun f H => H)
              ltac:(intros n r H; simpl in H; by rewrite lookup_empty in H)
              _ _ Hname) as (f & Hf & Hstem & Hnone & Hrows & Hne).
  split; [done|]. split.
  { rewrite Hrows. apply Forall_forall. intros row Hrow.
    by apply list_elem_of_filter in Hrow as [Hrow _]. }
  exists f. split; [done|]. split; [by exists files|]. by split.
Qed.

(** X23. Files of the same stem share one entry of the result, and the last
    one listed in the index wins: when the index is not empty and lists,
    under the code, a file that reads without exception and has rows with
    the code, and no file listed after it has its stem, the result holds
    under that stem the rows of this file, and the rows of any file of the
    same stem listed before it are not returned. *)
Theorem X23_last_file_of_a_stem_wins fs loincfolder loinc self before f after :
  csv_index self !! loinc = Some (before ++ f :: after) ->
  snd (read_csv fs f) = None ->
  filter (fun row => row_matches strip loinc row = true) (fst (read_csv fs f))
  ≠ [] ->
  Forall (fun g => stem g ≠ stem f) after ->
  fst (GetCsvRowsAsJson strip stem fs loincfolder loinc self) !! stem f
  = Some (filter (fun row => row_matches strip loinc row = true)
                 (fst (read_csv fs f)))
  /\ csv_index (snd (GetCsvRowsAsJson strip stem fs loincfolder loinc self))
     = csv_index self.
Proof.
  intros Hcode Hnone Hrows Hafter. unfold GetCsvRowsAsJson.
  rewrite bool_decide_eq_false_2
    by (intros Hempty; by rewrite Hempty, lookup_empty in Hcode).
  rewrite Hcode.
  destruct (foldl _ _ (before ++ f :: after)) as [result out] eqn:Hfold.
  simpl. split; [|done].
  assert (Hres : result = fst (foldl (fun st f =>
                   collect_rows strip stem fs loinc f st)
                   (∅, printed self) (before ++ f :: after)))
    by (by rewrite Hfold).
  rewrite Hres, foldl_app. cbn [foldl].
  rewrite (collect_rows_fold_other _ _ _ _ _ Hafter).
  unfold collect_rows at 1.
  destruct (read_csv fs f) as [all_rows raised]. simpl in Hnone, Hrows.
  subst raised. simpl.
  destruct (filter _ all_rows) as [|r found]; [done|].
  simpl. apply lookup_insert_eq.
Qed.

End LoincToolsFacts.

Lemma X19_witness :
  fst (CollectCSVs no_strip sample_fs "/data" new_tools) !! "2345-7"
  = Some ["/data/a/Loinc.csv"; "/data/b/Loinc.csv"]
  /\ NoDup ["/data/a/Loinc.csv"; "/data/b/Loinc.csv"].
Proof.
  assert (H : fst (CollectCSVs no_strip sample_fs "/data" new_tools) !! "2345-7"
              = Some ["/data/a/Loinc.csv"; "/data/b/Loinc.csv"])
    by (vm_compute; reflexivity).
  split; [exact H|].
  exact (proj1 (proj2 (X19_index_entries_are_backed_by_rows no_strip sample_fs
                         "/data" new_tools _ _ H))).
Defined.

Lemma X20_witness :
  indexed (fst (CollectCSVs no_strip sample_fs "/data" new_tools))
          "718-7" "/data/Long.csv".
Proof.
  apply X20_first_hundred_rows_are_indexed.
  - apply (bool_decide_unpack _). vm_compute. exact I.
  - exists 0, (code_row "718-7"). split; [lia|]. split; reflexivity.
  - discriminate.
Defined.

Lemma sample_fs_no_9999 f :
  f ∈ glob_csv sample_fs "/data" -> ~ sampled_in no_strip sample_fs f "9999-9".
Proof.
  intros Hf (i & row & Hi & Hrow & Hcode).
  assert (Hin : row ∈ take 100 (fst (read_csv sample_fs f))).
  { apply list_elem_of_lookup. exists i. by apply lookup_take_Some. }
  clear Hrow Hi. simpl in Hf.
  repeat (apply elem_of_cons in Hf as [->|Hf]).
  - vm_compute in Hin.
    repeat (apply elem_of_cons in Hin as [->|Hin]; [discriminate Hcode|]).
    by apply elem_of_nil in Hin.
  - vm_compute in Hin.
    repeat (apply elem_of_cons in Hin as [->|Hin]; [discriminate Hcode|]).
    by apply elem_of_nil in Hin.
  - change (fst (read_csv sample_fs "/data/Long.csv"))
      with (replicate 100 (code_row "718-7") ++ [code_row "9999-9"]) in Hin.
    rewrite take_app_length' in Hin by (by rewrite length_replicate).
    apply elem_of_replicate in Hin as [-> _]. discriminate Hcode.
  - by apply elem_of_nil in Hf.
Defined.

(** The row of position 100 of the long file carries the code "9999-9",
    and the code is still reported as not found. *)
Lemma X21_witness :
  fst (read_csv sample_fs "/data/Long.csv") !! 100 = Some (code_row "9999-9")
  /\ fst (GetCsvRowsAsJson no_strip sample_stem sample_fs "/data" "9999-9"
            new_tools) = ∅.
Proof.
  split; [vm_compute; reflexivity|].
  exact (proj1 (X21_rows_past_the_sample_are_not_found no_strip sample_stem
                  sample_fs "/data" "9999-9" new_tools eq_refl
                  sample_fs_no_9999)).
Defined.

Lemma X22_witness :
  fst (GetCsvRowsAsJson no_strip sample_stem sample_fs "/data" "2345-7"
         new_tools) !! "Loinc"
  = Some [code_row "2345-7"; <[ "STATUS" := "ACTIVE" ]> (code_row "2345-7")]
  /\ Forall (fun row => row_matches no_strip "2345-7" row = true)
       [code_row "2345-7"; <[ "STATUS" := "ACTIVE" ]> (code_row "2345-7")].
Proof.
  assert (H : fst (GetCsvRowsAsJson no_strip sample_stem sample_fs "/data"
                     "2345-7" new_tools) !! "Loinc"
              = Some [code_row "2345-7";
                      <[ "STATUS" := "ACTIVE" ]> (code_row "2345-7")])
    by (vm_compute; reflexivity).
  split; [exact H|].
  exact (proj1 (proj2 (X22_returned_rows_carry_the_code no_strip sample_stem
                         sample_fs "/data" "2345-7" new_tools _ _ H))).
Defined.

(** Both sample files named Loinc.csv have rows with the code "2345-7";
    the rows of the first one are not in the result. *)
Lemma X23_witness :
  fst (GetCsvRowsAsJson no_strip sample_stem sample_fs "/data" "2345-7"
         (snd (CollectCSVs no_strip sample_fs "/data" new_tools)))
    !! sample_stem "/data/b/Loinc.csv"
  = Some (filter (fun row => row_matches no_strip "2345-7" row = true)
                 (fst (read_csv sample_fs "/data/b/Loinc.csv"))).
Proof.
  apply (X23_last_file_of_a_stem_wins no_strip sample_stem sample_fs "/data"
           "2345-7" (snd (CollectCSVs no_strip sample_fs "/data" new_tools))
           ["/data/a/Loinc.csv"] "/data/b/Loinc.csv" []).
  - vm_compute. reflexivity.
  - reflexivity.
  - vm_compute. discriminate.
  - constructor.
Defined.

